(** * selenium_side_runner.loader: the .side project loader

    A shallow embedding of [src/selenium_side_runner/loader.py] and the
    properties of its four functions: [_build_command], [_build_test],
    [_build_suite] and [load_side_project].

    The loader works on what [json.loads] returns, so the embedding starts
    with the Python values a JSON document decodes to, the handful of
    operations the loader applies to them ([dict.get], [or], [bool], [list],
    iteration, hashing for dict keys), and the exceptions those operations
    raise. *)

From Stdlib Require Import ZArith String Ascii List Bool Lia.
From Stdlib Require Import PrimFloat SpecFloat FloatOps.
Import ListNotations.

Set Warnings "-register-all".

Local Open Scope string_scope.
Local Open Scope list_scope.

(* ================================================================== *)
(** ** Python values *)

(** The values [json.loads] produces.  A [str] is held as its UTF-8
    encoding; a [float] is an IEEE binary64 number; a [dict] keeps its
    items in insertion order (its keys are pairwise distinct in any value
    [json.loads] returns, so the first match of a key is its only one). *)
Inductive value : Type :=
| VNone
| VBool (b : bool)
| VInt (z : Z)
| VFloat (f : float)
| VStr (s : string)
| VList (l : list value)
| VDict (d : list (string * value)).

(** [type(v).__name__] *)
Definition type_name (v : value) : string :=
  match v with
  | VNone => "NoneType"
  | VBool _ => "bool"
  | VInt _ => "int"
  | VFloat _ => "float"
  | VStr _ => "str"
  | VList _ => "list"
  | VDict _ => "dict"
  end.

(* ================================================================== *)
(** ** Exceptions and the error monad *)

(** What [json.JSONDecodeError] carries: message, document and position. *)
Record decode_error : Type := mkDecodeError {
  de_msg : string;
  de_doc : string;
  de_pos : nat
}.

Inductive type_error : Type :=
| Message (msg : string)      (* raise TypeError(msg) written in the source *)
| NotIterable (ty : string)   (* 'ty' object is not iterable *)
| Unhashable (ty : string).   (* unhashable type: 'ty' *)

(** The exception classes the loader can raise; the constructor is the
    class. *)
Inductive exn : Type :=
| TypeError (why : type_error)
| AttributeError (ty : string) (attr : string) (* 'ty' object has no attribute 'attr' *)
| JSONDecodeError (e : decode_error).

Inductive result (A : Type) : Type :=
| Ok (a : A)
| Raise (e : exn).

Arguments Ok {A} a.
Arguments Raise {A} e.

Definition bind {A B : Type} (c : result A) (k : A -> result B) : result B :=
  match c with
  | Ok a => k a
  | Raise e => Raise e
  end.

Notation "x <- c ;; k" := (bind c (fun x => k))
  (at level 61, c at next level, right associativity).

(** A list comprehension [[f(x) for x in l]]: elements are built in order
    and the first exception ends the loop. *)
Fixpoint mapM {A B : Type} (f : A -> result B) (l : list A) : result (list B) :=
  match l with
  | [] => Ok []
  | x :: l' => y <- f x ;; ys <- mapM f l' ;; Ok (y :: ys)
  end.

(* ================================================================== *)
(** ** The operations the loader uses *)

Fixpoint dict_lookup (key : string) (d : list (string * value)) : option value :=
  match d with
  | [] => None
  | (k, v) :: d' => if String.eqb k key then Some v else dict_lookup key d'
  end.

(** [raw.get(key, default)]: only a dict has a [get] attribute. *)
Definition py_get (raw : value) (key : string) (default : value) : result value :=
  match raw with
  | VDict d =>
      Ok (match dict_lookup key d with Some v => v | None => default end)
  | _ => Raise (AttributeError (type_name raw) "get")
  end.

(** Truth value testing. *)
Definition truthy (v : value) : bool :=
  match v with
  | VNone => false
  | VBool b => b
  | VInt z => negb (Z.eqb z 0)
  | VFloat f => negb (PrimFloat.eqb f PrimFloat.zero)
  | VStr s => match s with EmptyString => false | String _ _ => true end
  | VList l => match l with [] => false | _ :: _ => true end
  | VDict d => match d with [] => false | _ :: _ => true end
  end.

(** [a or b] *)
Definition py_or (a b : value) : value := if truthy a then a else b.

(** A continuation byte of a UTF-8 sequence: 10xxxxxx. *)
Definition utf8_cont (c : ascii) : bool :=
  match c with
  | Ascii _ _ _ _ _ _ false true => true
  | _ => false
  end.

(** The characters of a str, each as a one-character str. *)
Fixpoint py_chars (s : string) : list string :=
  match s with
  | EmptyString => []
  | String c rest =>
      match rest with
      | EmptyString => [String c EmptyString]
      | String c' _ =>
          if utf8_cont c' then
            match py_chars rest with
            | g :: l => String c g :: l
            | [] => [String c EmptyString]
            end
          else String c EmptyString :: py_chars rest
      end
  end.

(** What a [for] loop (or [list(...)]) sees: the elements of a list, the
    characters of a str, the keys of a dict; the other values are not
    iterable. *)
Definition py_iter (v : value) : result (list value) :=
  match v with
  | VList l => Ok l
  | VStr s => Ok (map VStr (py_chars s))
  | VDict d => Ok (map (fun kv => VStr (fst kv)) d)
  | _ => Raise (TypeError (NotIterable (type_name v)))
  end.

(* ================================================================== *)
(** ** Dict keys *)

(** Two keys are the same dict key when they compare equal with [==]
    (and hash alike): [True], [1] and [1.0] are one key.  [hkey] is a
    canonical form of a hashable value, so that key equality is equality of
    canonical forms. *)
Inductive hkey : Type :=
| KNone
| KInt (z : Z)
| KStr (s : string)
| KInf (neg : bool)
| KNan
| KFrac (neg : bool) (m : positive) (e : Z). (* +-m * 2^e, m odd, e < 0 *)

Fixpoint strip_twos (m : positive) (e : Z) : positive * Z :=
  match m with
  | xO m' => strip_twos m' (e + 1)
  | _ => (m, e)
  end.

Definition float_key (f : float) : hkey :=
  match Prim2SF f with
  | S754_zero _ => KInt 0
  | S754_infinity s => KInf s
  | S754_nan => KNan
  | S754_finite s m e =>
      let (m', e') := strip_twos m e in
      if Z.leb 0 e'
      then KInt ((if s then -1 else 1) * (Z.pos m' * 2 ^ e'))
      else KFrac s m' e'
  end.

(** [hash(v)]: lists and dicts are unhashable. *)
Definition py_hash (v : value) : result hkey :=
  match v with
  | VNone => Ok KNone
  | VBool b => Ok (KInt (if b then 1 else 0))
  | VInt z => Ok (KInt z)
  | VFloat f => Ok (float_key f)
  | VStr s => Ok (KStr s)
  | VList _ | VDict _ => Raise (TypeError (Unhashable (type_name v)))
  end.

Definition hkey_eqb (a b : hkey) : bool :=
  match a, b with
  | KNone, KNone => true
  | KInt x, KInt y => Z.eqb x y
  | KStr x, KStr y => String.eqb x y
  | KInf x, KInf y => Bool.eqb x y
  | KNan, KNan => true
  | KFrac s m e, KFrac s' m' e' => Bool.eqb s s' && Pos.eqb m m' && Z.eqb e e'
  | _, _ => false
  end.

(** Key equality of two values; an unhashable value is no key at all. *)
Definition key_eqb (a b : value) : bool :=
  match py_hash a, py_hash b with
  | Ok x, Ok y => hkey_eqb x y
  | _, _ => false
  end.

(* ================================================================== *)
(** ** The data model *)

(** Modelled from the spec: [models.py], which declares [SideCommand],
    [SideTest], [SideSuite] and [SideProject], is not among the sources.
    They are taken as plain keyword-constructed value classes with the
    fields the loader passes and section 3 of the specification lists, and
    no validation of their own: a field holds whatever Python value the
    loader computed for it. *)
Record SideCommand : Type := mkSideCommand {
  cmd_id : value;
  cmd_command : value;
  cmd_target : value;
  cmd_value : value;
  cmd_comment : value
}.

(** Modelled from the spec: the Test of section 3, built by [_build_test]
    with the keywords [id], [name] and [commands]. *)
Record SideTest : Type := mkSideTest {
  test_id : value;
  test_name : value;
  test_commands : list SideCommand
}.

(** Modelled from the spec: the Suite of section 3, built by [_build_suite]
    with the keywords [id], [name], [tests], [persist_session], [parallel]
    and [timeout]; [tests] holds the ids as they come, [persist_session] and
    [parallel] the results of [bool(...)]. *)
Record SideSuite : Type := mkSideSuite {
  suite_id : value;
  suite_name : value;
  suite_tests : list value;
  suite_persist_session : bool;
  suite_parallel : bool;
  suite_timeout : value
}.

(** The [tests] dict of a project: items in insertion order, each with the
    key object it was first inserted under. *)
Definition test_dict : Type := list (value * SideTest).

(** Modelled from the spec: the Project of section 3, built by
    [load_side_project] with the keywords [id], [name], [url], [tests] and
    [suites]. *)
Record SideProject : Type := mkSideProject {
  project_id : value;
  project_name : value;
  project_url : value;
  project_tests : test_dict;
  project_suites : list SideSuite
}.

(** [d[k] = t] on a dict whose key [k] is known to be hashable: an existing
    item with an equal key keeps its key and place and takes the new value;
    otherwise the item is added at the end. *)
Fixpoint dict_store (k : value) (t : SideTest) (d : test_dict) : test_dict :=
  match d with
  | [] => [(k, t)]
  | (k', t') :: d' =>
      if key_eqb k' k then (k', t) :: d' else (k', t') :: dict_store k t d'
  end.

(** [d.get(k)] *)
Fixpoint dict_find (k : value) (d : test_dict) : option SideTest :=
  match d with
  | [] => None
  | (k', t') :: d' => if key_eqb k' k then Some t' else dict_find k d'
  end.

(** The dict comprehension [{test.id: test for test in tests}], run from
    the dict [d] built so far: each key is hashed before it is stored. *)
Fixpoint dict_comp (ts : list SideTest) (d : test_dict) : result test_dict :=
  match ts with
  | [] => Ok d
  | t :: ts' =>
      _ <- py_hash (test_id t) ;;
      dict_comp ts' (dict_store (test_id t) t d)
  end.

(* ================================================================== *)
(** ** The builders *)

Definition _build_command (raw : value) : result SideCommand :=
  i <- py_get raw "id" (VStr "") ;;
  c <- py_get raw "command" (VStr "") ;;
  t <- py_get raw "target" (VStr "") ;;
  v <- py_get raw "value" (VStr "") ;;
  m <- py_get raw "comment" VNone ;;
  Ok {| cmd_id := i;
        cmd_command := c;
        cmd_target := py_or t (VStr "");
        cmd_value := py_or v (VStr "");
        cmd_comment := m |}.

Definition _build_test (raw : value) : result SideTest :=
  raw_commands <- py_get raw "commands" (VList []) ;;
  it <- py_iter raw_commands ;;
  commands <- mapM _build_command it ;;
  i <- py_get raw "id" (VStr "") ;;
  n <- py_get raw "name" (VStr "") ;;
  Ok {| test_id := i; test_name := n; test_commands := commands |}.

Definition _build_suite (raw : value) : result SideSuite :=
  i <- py_get raw "id" (VStr "") ;;
  n <- py_get raw "name" (VStr "") ;;
  raw_tests <- py_get raw "tests" (VList []) ;;
  ts <- py_iter raw_tests ;;
  ps <- py_get raw "persistSession" (VBool false) ;;
  pl <- py_get raw "parallel" (VBool false) ;;
  tm <- py_get raw "timeout" VNone ;;
  Ok {| suite_id := i;
        suite_name := n;
        suite_tests := ts;
        suite_persist_session := truthy ps;
        suite_parallel := truthy pl;
        suite_timeout := tm |}.

(** The message of the guard of [load_side_project]. *)
Definition payload_type_message : string :=
  "json_payload 는 문자열이어야 합니다.".

Section Loader.

  (** [json.loads] on a str, from the Python standard library: it returns
      the decoded value or raises [JSONDecodeError].  The interpreter's
      resource limits (recursion depth, memory) are outside the model. *)
  Variable json_loads : string -> decode_error + value.

Definition py_json_loads (s : string) : result value :=
  match json_loads s with
  | inl e => Raise (JSONDecodeError e)
  | inr v => Ok v
  end.

  (** [json_payload] is whatever object the caller passes; [default_name]
      is the keyword argument, [VNone] when it is left out. *)
Definition load_side_project (json_payload : value) (default_name : value)
  : result SideProject :=
  match json_payload with
  | VStr s =>
      raw_project <- py_json_loads s ;;
      n <- py_get raw_project "name" VNone ;;
      let name := py_or (py_or n default_name) (VStr "Unnamed Project") in
      raw_tests <- py_get raw_project "tests" (VList []) ;;
      it <- py_iter raw_tests ;;
      tests <- mapM _build_test it ;;
      test_map <- dict_comp tests [] ;;
      raw_suites <- py_get raw_project "suites" (VList []) ;;
      its <- py_iter raw_suites ;;
      suites <- mapM _build_suite its ;;
      i <- py_get raw_project "id" (VStr "") ;;
      u <- py_get raw_project "url" VNone ;;
      Ok {| project_id := i;
            project_name := name;
            project_url := u;
            project_tests := test_map;
            project_suites := suites |}
  | _ => Raise (TypeError (Message payload_type_message))
  end.

End Loader.

(* ================================================================== *)
(** ** A reference JSON reader

    A small recursive-descent reader used to run the loader on concrete
    documents.  It reads the JSON of .side files: objects (a repeated key
    keeps its place and takes the last value, as in a Python dict), arrays,
    strings with the one-letter escapes, integers, [true], [false], [null]
    and the constants [NaN], [Infinity], [-Infinity] that [json.loads]
    accepts.  Numbers with a fraction or an exponent and [\u] escapes are
    outside it and are refused. *)

(** message, and the input left where reading stopped *)
Definition read_error : Type := (string * string)%type.

Definition quote_char : ascii := ascii_of_nat 34.
Definition backslash_char : ascii := ascii_of_nat 92.

Definition is_ws (c : ascii) : bool :=
  let n := nat_of_ascii c in
  Nat.eqb n 32 || Nat.eqb n 9 || Nat.eqb n 10 || Nat.eqb n 13.

Fixpoint skip_ws (s : string) : string :=
  match s with
  | String c r => if is_ws c then skip_ws r else s
  | EmptyString => s
  end.

Definition digit_of (c : ascii) : option Z :=
  let n := nat_of_ascii c in
  if Nat.leb 48 n && Nat.leb n 57 then Some (Z.of_nat (n - 48)) else None.

Fixpoint read_digits (s : string) (acc : Z) : Z * string :=
  match s with
  | String c r =>
      match digit_of c with
      | Some d => read_digits r (10 * acc + d)
      | None => (acc, s)
      end
  | EmptyString => (acc, s)
  end.

Definition starts_digit (s : string) : bool :=
  match s with
  | String c _ => match digit_of c with Some _ => true | None => false end
  | EmptyString => false
  end.

(** Does a fraction or an exponent follow the integer part? *)
Definition float_tail (s : string) : bool :=
  match s with
  | String c r =>
      let n := nat_of_ascii c in
      if Nat.eqb n 46 then starts_digit r
      else if Nat.eqb n 101 || Nat.eqb n 69 then
        match r with
        | String c' r' =>
            let n' := nat_of_ascii c' in
            if Nat.eqb n' 43 || Nat.eqb n' 45 then starts_digit r' else starts_digit r
        | EmptyString => false
        end
      else false
  | EmptyString => false
  end.

(** The integer part [0|[1-9][0-9]*] after an optional sign. *)
Definition read_int (neg : bool) (s : string) (at_ : string) : read_error + (value * string) :=
  match s with
  | String c r =>
      match digit_of c with
      | Some d =>
          let (n, rest) := if Z.eqb d 0 then (0%Z, r) else read_digits r d in
          if float_tail rest then inl ("Unsupported number", at_)
          else inr (VInt (if neg then - n else n), rest)
      | None => inl ("Expecting value", at_)
      end
  | EmptyString => inl ("Expecting value", at_)
  end.

Definition unescape (c : ascii) : option ascii :=
  let n := nat_of_ascii c in
  if Nat.eqb n 34 then Some quote_char
  else if Nat.eqb n 92 then Some backslash_char
  else if Nat.eqb n 47 then Some (ascii_of_nat 47)
  else if Nat.eqb n 98 then Some (ascii_of_nat 8)
  else if Nat.eqb n 102 then Some (ascii_of_nat 12)
  else if Nat.eqb n 110 then Some (ascii_of_nat 10)
  else if Nat.eqb n 114 then Some (ascii_of_nat 13)
  else if Nat.eqb n 116 then Some (ascii_of_nat 9)
  else None.

(** The rest of a string literal, after its opening quote. *)
Fixpoint read_string (s : string) : read_error + (string * string) :=
  match s with
  | EmptyString => inl ("Unterminated string", s)
  | String c r =>
      if Ascii.eqb c quote_char then inr (EmptyString, r)
      else if Ascii.eqb c backslash_char then
        match r with
        | String e r' =>
            match unescape e with
            | Some x =>
                match read_string r' with
                | inr (t, rest) => inr (String x t, rest)
                | inl err => inl err
                end
            | None => inl ("Invalid escape", s)
            end
        | EmptyString => inl ("Unterminated string", s)
        end
      else if Nat.ltb (nat_of_ascii c) 32 then inl ("Invalid control character", s)
      else
        match read_string r with
        | inr (t, rest) => inr (String c t, rest)
        | inl err => inl err
        end
  end.

(** [s] without the prefix [p], when it starts with it. *)
Fixpoint strip_prefix (p s : string) : option string :=
  match p, s with
  | EmptyString, _ => Some s
  | String a p', String b s' => if Ascii.eqb a b then strip_prefix p' s' else None
  | String _ _, EmptyString => None
  end.

(** [d[k] = v] on the items of an object under construction. *)
Fixpoint object_set (k : string) (v : value) (d : list (string * value))
  : list (string * value) :=
  match d with
  | [] => [(k, v)]
  | (k', v') :: d' =>
      if String.eqb k' k then (k', v) :: d' else (k', v') :: object_set k v d'
  end.

Definition read_constant (s : string) : read_error + (value * string) :=
  match strip_prefix "null" s with Some r => inr (VNone, r) | None =>
  match strip_prefix "true" s with Some r => inr (VBool true, r) | None =>
  match strip_prefix "false" s with Some r => inr (VBool false, r) | None =>
  match strip_prefix "NaN" s with Some r => inr (VFloat PrimFloat.nan, r) | None =>
  match strip_prefix "Infinity" s with Some r => inr (VFloat PrimFloat.infinity, r) | None =>
  match strip_prefix "-Infinity" s with Some r => inr (VFloat PrimFloat.neg_infinity, r) | None =>
  match strip_prefix "-" s with Some r => read_int true r s | None =>
  read_int false s s
  end end end end end end end.

(** One value at the head of [s]; [read_items] and [read_members] read the
    rest of an array and of an object, [acc] holding what was read so far
    (the array's elements in reverse). *)
Fixpoint read_value (fuel : nat) (s : string) : read_error + (value * string) :=
  match fuel with
  | O => inl ("Nesting too deep", s)
  | S fuel' =>
      match s with
      | String c r =>
          let n := nat_of_ascii c in
          if Nat.eqb n 34 then
            match read_string r with
            | inr (t, rest) => inr (VStr t, rest)
            | inl err => inl err
            end
          else if Nat.eqb n 91 then
            match skip_ws r with
            | String c' r' =>
                if Nat.eqb (nat_of_ascii c') 93 then inr (VList [], r')
                else read_items fuel' (skip_ws r) []
            | EmptyString => inl ("Expecting value", EmptyString)
            end
          else if Nat.eqb n 123 then
            match skip_ws r with
            | String c' r' =>
                if Nat.eqb (nat_of_ascii c') 125 then inr (VDict [], r')
                else read_members fuel' (skip_ws r) []
            | EmptyString => inl ("Expecting property name", EmptyString)
            end
          else read_constant s
      | EmptyString => inl ("Expecting value", s)
      end
  end
with read_items (fuel : nat) (s : string) (acc : list value)
  : read_error + (value * string) :=
  match fuel with
  | O => inl ("Nesting too deep", s)
  | S fuel' =>
      match read_value fuel' s with
      | inl err => inl err
      | inr (v, rest) =>
          match skip_ws rest with
          | String c r =>
              let n := nat_of_ascii c in
              if Nat.eqb n 44 then read_items fuel' (skip_ws r) (v :: acc)
              else if Nat.eqb n 93 then inr (VList (rev (v :: acc)), r)
              else inl ("Expecting ',' delimiter", skip_ws rest)
          | EmptyString => inl ("Expecting ',' delimiter", EmptyString)
          end
      end
  end
with read_members (fuel : nat) (s : string) (acc : list (string * value))
  : read_error + (value * string) :=
  match fuel with
  | O => inl ("Nesting too deep", s)
  | S fuel' =>
      match s with
      | String c r =>
          if Nat.eqb (nat_of_ascii c) 34 then
            match read_string r with
            | inl err => inl err
            | inr (k, rest) =>
                match skip_ws rest with
                | String c1 r1 =>
                    if Nat.eqb (nat_of_ascii c1) 58 then
                      match read_value fuel' (skip_ws r1) with
                      | inl err => inl err
                      | inr (v, rest2) =>
                          match skip_ws rest2 with
                          | String c2 r2 =>
                              let n2 := nat_of_ascii c2 in
                              if Nat.eqb n2 44
                              then read_members fuel' (skip_ws r2) (object_set k v acc)
                              else if Nat.eqb n2 125
                              then inr (VDict (object_set k v acc), r2)
                              else inl ("Expecting ',' delimiter", skip_ws rest2)
                          | EmptyString => inl ("Expecting ',' delimiter", EmptyString)
                          end
                      end
                    else inl ("Expecting ':' delimiter", skip_ws rest)
                | EmptyString => inl ("Expecting ':' delimiter", EmptyString)
                end
            end
          else inl ("Expecting property name", s)
      | EmptyString => inl ("Expecting property name", s)
      end
  end.

(** The whole document: one value between optional blanks, nothing after.
    The position of an error is the number of characters read before it. *)
Definition json_loads_ref (doc : string) : decode_error + value :=
  let fail (e : read_error) :=
    inl {| de_msg := fst e;
           de_doc := doc;
           de_pos := String.length doc - String.length (snd e) |} in
  match read_value (2 * String.length doc + 2) (skip_ws doc) with
  | inl e => fail e
  | inr (v, rest) =>
      match skip_ws rest with
      | EmptyString => inr v
      | String _ _ => fail ("Extra data", skip_ws rest)
      end
  end.

(** JSON text is written below with an apostrophe where the document has a
    double quote; [json_text] puts the double quotes back. *)
Fixpoint json_text (s : string) : string :=
  match s with
  | EmptyString => EmptyString
  | String c r =>
      String (if Nat.eqb (nat_of_ascii c) 39 then quote_char else c) (json_text r)
  end.

(* ================================================================== *)
(** ** Shapes of raw records *)

Definition is_dict (v : value) : bool :=
  match v with VDict _ => true | _ => false end.

Definition is_str (v : value) : bool :=
  match v with VStr _ => true | _ => false end.

Definition hashable (v : value) : bool :=
  match v with VList _ | VDict _ => false | _ => true end.

(** [raw.get(key, default)] on the items of a dict. *)
Definition get_default (d : list (string * value)) (key : string) (default : value)
  : value :=
  match dict_lookup key d with Some v => v | None => default end.

(** The field is absent or an array whose elements all satisfy [ok]. *)
Definition array_field (ok : value -> bool) (d : list (string * value)) (key : string)
  : bool :=
  match dict_lookup key d with
  | None => true
  | Some (VList l) => forallb ok l
  | Some _ => false
  end.

(** A test record the loader can build and index: an object whose
    [commands], when present, is an array of objects and whose [id] can be
    a dict key. *)
Definition test_shaped (v : value) : bool :=
  match v with
  | VDict d => array_field is_dict d "commands" && hashable (get_default d "id" (VStr ""))
  | _ => false
  end.

(** A suite record the loader can build: an object whose [tests], when
    present, is an array. *)
Definition suite_shaped (v : value) : bool :=
  match v with
  | VDict d => array_field (fun _ => true) d "tests"
  | _ => false
  end.

Definition project_shaped (v : value) : bool :=
  match v with
  | VDict d => array_field test_shaped d "tests" && array_field suite_shaped d "suites"
  | _ => false
  end.

(** The last test of [ts] whose id is the key [k]. *)
Definition last_with_id (k : value) (ts : list SideTest) : option SideTest :=
  find (fun t => key_eqb (test_id t) k) (rev ts).

(** How many items of the dict sit under the key [k]. *)
Definition count_key (k : value) (d : test_dict) : nat :=
  length (filter (fun e => key_eqb (fst e) k) d).

(** No two items of the dict sit under one key. *)
Definition keys_distinct (d : test_dict) : Prop := forall k, count_key k d <= 1.

(** An item of the dict built from the tests [ts]: its key is the id of one
    of them, and its value is one of them whose id is that key. *)
Definition item_of (ts : list SideTest) (e : value * SideTest) : Prop :=
  (exists t, In t ts /\ test_id t = fst e) /\
  In (snd e) ts /\ key_eqb (fst e) (test_id (snd e)) = true.

(** The exceptions a decoded document of an unexpected shape runs into:
    a record that is not an object has no [get]; a field that should be a
    sequence is not iterable; a test id is not hashable. *)
Definition shape_error (e : exn) : Prop :=
  match e with
  | AttributeError _ attr => attr = "get"
  | TypeError (NotIterable _) => True
  | TypeError (Unhashable _) => True
  | _ => False
  end.

(** The name of section 4.4 of the specification, read to the letter: the
    raw name when it is a non-empty string, else the default name when one
    was passed, else the fallback. *)
Definition spec_name (raw_name : option value) (default_name : value) : value :=
  match raw_name with
  | Some (VStr (String c s)) => VStr (String c s)
  | _ =>
      match default_name with
      | VNone => VStr "Unnamed Project"
      | _ => default_name
      end
  end.

(** The name the loader resolves: the raw name when it is present and
    truthy, else the default name when it is truthy, else the fallback. *)
Definition resolved_name (raw_name : option value) (default_name : value) : value :=
  match raw_name with
  | Some n =>
      if truthy n then n
      else if truthy default_name then default_name
      else VStr "Unnamed Project"
  | None =>
      if truthy default_name then default_name else VStr "Unnamed Project"
  end.

(** A field with presence defaulting, [raw.get(key, "")]: the empty string
    when the key is absent, the raw value as it is when the key is present. *)
Definition string_field (d : list (string * value)) (key : string) (v : value) : Prop :=
  (dict_lookup key d = None -> v = VStr "") /\
  (forall x, dict_lookup key d = Some x -> v = x).

(** A field with falsy-to-empty normalisation, [raw.get(key, "") or ""]. *)
Definition collapsed_field (d : list (string * value)) (key : string) (v : value)
  : Prop :=
  (dict_lookup key d = None -> v = VStr "") /\
  (dict_lookup key d = Some VNone -> v = VStr "") /\
  (dict_lookup key d = Some (VStr "") -> v = VStr "") /\
  (forall x, dict_lookup key d = Some x -> truthy x = false -> v = VStr "") /\
  (forall x, dict_lookup key d = Some x -> truthy x = true -> v = x) /\
  (forall c s, dict_lookup key d = Some (VStr (String c s)) -> v = VStr (String c s)).

(* ================================================================== *)
(** ** Sample documents *)

(** The project of section 8 of the specification, whose suite names a test
    that does not exist. *)
Definition doc_dangling_suite : string :=
  json_text
    "{'tests':[{'id':'t1','name':'A','commands':[]}],'suites':[{'id':'s1','name':'S','tests':['t1','missing']}]}".

Definition raw_dangling_suite : value :=
  VDict
    [("tests",
      VList [VDict [("id", VStr "t1"); ("name", VStr "A"); ("commands", VList [])]]);
     ("suites",
      VList [VDict [("id", VStr "s1"); ("name", VStr "S");
                    ("tests", VList [VStr "t1"; VStr "missing"])]])].

Definition doc_tests_number : string := json_text "{'tests': 5}".

Definition doc_nan_url : string := json_text "{'url': NaN}".

Definition doc_null_fields : string :=
  json_text
    "{'id': null, 'tests': [{'id': null, 'name': null, 'commands': [{'id': null, 'command': null, 'target': null, 'value': null}]}], 'suites': [{'id': null, 'name': null}]}".

Definition doc_missing_fields : string :=
  json_text "{'tests': [{'commands': [{}]}], 'suites': [{}]}".

Definition doc_empty_name : string := json_text "{'name': ''}".

Definition doc_duplicate_ids : string :=
  json_text
    "{'tests': [{'id': 'a', 'name': 'first'}, {'id': 'b', 'name': 'other'}, {'id': 'a', 'name': 'last'}]}".

Definition raw_command_sample : list (string * value) :=
  [("id", VStr "c1"); ("command", VStr "click"); ("target", VStr "css=button");
   ("value", VNone)].

Definition raw_suite_sample : list (string * value) :=
  [("id", VStr "s1"); ("tests", VList [VStr "t1"; VStr "missing"]);
   ("persistSession", VBool true); ("timeout", VInt 300)].

Definition raw_test_sample : list (string * value) :=
  [("id", VStr "t1");
   ("commands",
    VList [VDict [("command", VStr "open"); ("target", VStr "/")];
           VDict raw_command_sample])].

(* ================================================================== *)
(** ** What the loader accepts, exactly *)

Definition iterable (v : value) : bool :=
  match v with VList _ | VStr _ | VDict _ => true | _ => false end.

(** A record [_build_test] builds: an object whose [commands] can be
    iterated and yield objects only. *)
Definition test_buildable (v : value) : bool :=
  match v with
  | VDict d =>
      match py_iter (get_default d "commands" (VList [])) with
      | Ok it => forallb is_dict it
      | Raise _ => false
      end
  | _ => false
  end.

(** A record [_build_suite] builds: an object whose [tests] can be
    iterated. *)
Definition suite_buildable (v : value) : bool :=
  match v with
  | VDict d => iterable (get_default d "tests" (VList []))
  | _ => false
  end.

(** The id [_build_test] gives the test of a raw record. *)
Definition raw_test_id (v : value) : value :=
  match v with
  | VDict d => get_default d "id" (VStr "")
  | _ => VNone
  end.

(** A decoded document [load_side_project] turns into a project. *)
Definition loadable (v : value) : bool :=
  match v with
  | VDict d =>
      match py_iter (get_default d "tests" (VList [])),
            py_iter (get_default d "suites" (VList [])) with
      | Ok ts, Ok ss =>
          forallb (fun r => test_buildable r && hashable (raw_test_id r)) ts
          && forallb suite_buildable ss
      | _, _ => false
      end
  | _ => false
  end.

(** The keys of the project object the loader reads. *)
Definition project_keys : list string := ["name"; "tests"; "suites"; "id"; "url"].

(** The ids of the tests are pairwise different dict keys. *)
Definition ids_distinct (ts : list SideTest) : Prop :=
  ForallOrdPairs (fun a b => key_eqb (test_id a) (test_id b) = false) ts.

Definition doc_null_tests : string := json_text "{'tests': null, 'suites': 7}".

Definition doc_bad_second_test : string :=
  json_text "{'tests': [{'id': 'a'}, 3, {'id': []}], 'suites': 7}".

Definition doc_unhashable_second_id : string :=
  json_text "{'tests': [{'id': 'a'}, {'id': {}}, {'id': []}], 'suites': 7}".

Definition doc_extra_keys : string :=
  json_text "{'version': '2.0', 'name': 'P', 'urls': [], 'plugins': []}".

Definition doc_name_only : string := json_text "{'name': 'P'}".

Definition doc_two_tests : string :=
  json_text "{'tests': [{'id': 'a', 'name': 'first'}, {'id': 'b', 'name': 'other'}]}".

(* ================================================================== *)
(** * Properties *)

(** ** The error monad and list comprehensions *)

Lemma bind_Ok {A B : Type} (c : result A) (k : A -> result B) (b : B) :
  bind c k = Ok b -> exists a, c = Ok a /\ k a = Ok b.
Proof.
  destruct c as [a|e]; simpl; intros H; [eauto | discriminate].
Qed.

Ltac bind_inv H :=
  let x := fresh "x" in
  let Hx := fresh "Hx" in
  apply bind_Ok in H; destruct H as (x & Hx & H).

Lemma mapM_Forall2 {A B : Type} (f : A -> result B) (l : list A) (ys : list B) :
  mapM f l = Ok ys <-> Forall2 (fun x y => f x = Ok y) l ys.
Proof.
  revert ys; induction l as [|x l IH]; intros ys; simpl.
  - split; intros H.
    + injection H as <-. constructor.
    + inversion H; reflexivity.
  - split; intros H.
    + bind_inv H. bind_inv H. injection H as <-.
      constructor; [assumption | now apply IH].
    + inversion H as [|? y ? ys' Hxy Hrest]; subst.
      rewrite Hxy; simpl. apply IH in Hrest. rewrite Hrest; reflexivity.
Qed.

Lemma mapM_length {A B : Type} (f : A -> result B) (l : list A) (ys : list B) :
  mapM f l = Ok ys -> length ys = length l.
Proof.
  intros H. apply mapM_Forall2 in H.
  induction H; simpl; congruence.
Qed.

Lemma mapM_nth {A B : Type} (f : A -> result B) (l : list A) (ys : list B) :
  mapM f l = Ok ys ->
  forall i x, nth_error l i = Some x ->
  exists y, nth_error ys i = Some y /\ f x = Ok y.
Proof.
  intros H. apply mapM_Forall2 in H.
  induction H as [|x0 y0 l' ys' Hxy _ IH]; intros i x Hi.
  - destruct i; discriminate.
  - destruct i as [|i]; simpl in *.
    + injection Hi as <-. eauto.
    + eauto.
Qed.

Lemma mapM_In {A B : Type} (f : A -> result B) (l : list A) (ys : list B) :
  mapM f l = Ok ys ->
  forall y, In y ys -> exists x, In x l /\ f x = Ok y.
Proof.
  intros H. apply mapM_Forall2 in H.
  induction H as [|x0 y0 l' ys' Hxy _ IH]; intros y Hy; simpl in *.
  - contradiction.
  - destruct Hy as [<-|Hy]; [eauto|].
    destruct (IH _ Hy) as (x & Hx & Hfx); eauto.
Qed.

Lemma mapM_total {A B : Type} (f : A -> result B) (l : list A) :
  (forall x, In x l -> exists y, f x = Ok y) ->
  exists ys, mapM f l = Ok ys.
Proof.
  induction l as [|x l IH]; intros H; simpl.
  - eauto.
  - destruct (H x (or_introl eq_refl)) as (y & Hy).
    destruct IH as (ys & Hys); [intros; apply H; now right|].
    rewrite Hy, Hys; simpl; eauto.
Qed.

(** ** Reading a field *)

Lemma py_get_dict (d : list (string * value)) (key : string) (default : value) :
  py_get (VDict d) key default = Ok (get_default d key default).
Proof. reflexivity. Qed.

Lemma py_get_Ok (raw : value) (key : string) (default v : value) :
  py_get raw key default = Ok v ->
  exists d, raw = VDict d /\ v = get_default d key default.
Proof.
  destruct raw; simpl; intros H; try discriminate.
  injection H as <-. eauto.
Qed.

Lemma py_or_not_none (a : value) (s : string) : py_or a (VStr s) <> VNone.
Proof.
  unfold py_or. destruct a; simpl; try discriminate.
  all: match goal with |- context [if ?b then _ else _] => destruct b end;
    discriminate.
Qed.

(** ** The builders on an object *)

Lemma build_command_dict (d : list (string * value)) :
  _build_command (VDict d) =
  Ok {| cmd_id := get_default d "id" (VStr "");
        cmd_command := get_default d "command" (VStr "");
        cmd_target := py_or (get_default d "target" (VStr "")) (VStr "");
        cmd_value := py_or (get_default d "value" (VStr "")) (VStr "");
        cmd_comment := get_default d "comment" VNone |}.
Proof. reflexivity. Qed.

Lemma build_command_Ok (raw : value) (c : SideCommand) :
  _build_command raw = Ok c -> exists d, raw = VDict d.
Proof.
  unfold _build_command. intros H. bind_inv H.
  apply py_get_Ok in Hx. destruct Hx as (d & -> & _). eauto.
Qed.

Lemma build_command_not_dict (raw : value) :
  is_dict raw = false -> _build_command raw = Raise (AttributeError (type_name raw) "get").
Proof. destruct raw; simpl; intros H; try reflexivity; discriminate. Qed.

Lemma build_test_dict (d : list (string * value)) :
  _build_test (VDict d) =
  (it <- py_iter (get_default d "commands" (VList [])) ;;
   commands <- mapM _build_command it ;;
   Ok {| test_id := get_default d "id" (VStr "");
         test_name := get_default d "name" (VStr "");
         test_commands := commands |}).
Proof. reflexivity. Qed.

Lemma build_test_Ok (raw : value) (t : SideTest) :
  _build_test raw = Ok t ->
  exists d it,
    raw = VDict d /\
    py_iter (get_default d "commands" (VList [])) = Ok it /\
    mapM _build_command it = Ok (test_commands t) /\
    test_id t = get_default d "id" (VStr "") /\
    test_name t = get_default d "name" (VStr "").
Proof.
  unfold _build_test. intros H. bind_inv H.
  apply py_get_Ok in Hx. destruct Hx as (d & -> & ->).
  bind_inv H. bind_inv H. simpl in H. injection H as <-.
  exists d. eexists. simpl. eauto.
Qed.

Lemma build_suite_dict (d : list (string * value)) :
  _build_suite (VDict d) =
  (ts <- py_iter (get_default d "tests" (VList [])) ;;
   Ok {| suite_id := get_default d "id" (VStr "");
         suite_name := get_default d "name" (VStr "");
         suite_tests := ts;
         suite_persist_session := truthy (get_default d "persistSession" (VBool false));
         suite_parallel := truthy (get_default d "parallel" (VBool false));
         suite_timeout := get_default d "timeout" VNone |}).
Proof. reflexivity. Qed.

Lemma build_suite_Ok (raw : value) (s : SideSuite) :
  _build_suite raw = Ok s ->
  exists d,
    raw = VDict d /\
    py_iter (get_default d "tests" (VList [])) = Ok (suite_tests s) /\
    suite_id s = get_default d "id" (VStr "") /\
    suite_name s = get_default d "name" (VStr "") /\
    suite_persist_session s = truthy (get_default d "persistSession" (VBool false)) /\
    suite_parallel s = truthy (get_default d "parallel" (VBool false)) /\
    suite_timeout s = get_default d "timeout" VNone.
Proof.
  unfold _build_suite. intros H. bind_inv H.
  apply py_get_Ok in Hx. destruct Hx as (d & -> & ->).
  simpl in H. bind_inv H. injection H as <-.
  exists d. simpl. auto 10.
Qed.

(** ** Dict keys *)

Lemma hkey_eqb_eq (a b : hkey) : hkey_eqb a b = true <-> a = b.
Proof.
  destruct a, b; simpl; split; intros H; try discriminate; try reflexivity.
  - apply Z.eqb_eq in H; congruence.
  - injection H as ->; apply Z.eqb_refl.
  - apply String.eqb_eq in H; congruence.
  - injection H as ->; apply String.eqb_refl.
  - apply Bool.eqb_prop in H; congruence.
  - injection H as ->; apply Bool.eqb_reflx.
  - apply andb_prop in H; destruct H as (H & He).
    apply andb_prop in H; destruct H as (Hs & Hm).
    apply Bool.eqb_prop in Hs. apply Pos.eqb_eq in Hm. apply Z.eqb_eq in He.
    congruence.
  - injection H as -> -> ->.
    now rewrite Bool.eqb_reflx, Pos.eqb_refl, Z.eqb_refl.
Qed.

Lemma key_eqb_true (a b : value) :
  key_eqb a b = true <-> exists k, py_hash a = Ok k /\ py_hash b = Ok k.
Proof.
  unfold key_eqb. split.
  - destruct (py_hash a) as [x|]; [|discriminate].
    destruct (py_hash b) as [y|]; [|discriminate].
    intros H. apply hkey_eqb_eq in H. subst. eauto.
  - intros (k & -> & ->). now apply hkey_eqb_eq.
Qed.

Lemma key_eqb_refl (a : value) (k : hkey) : py_hash a = Ok k -> key_eqb a a = true.
Proof. intros H. apply key_eqb_true. eauto. Qed.

Lemma key_eqb_sym (a b : value) : key_eqb a b = key_eqb b a.
Proof.
  destruct (key_eqb a b) eqn:Hab; destruct (key_eqb b a) eqn:Hba; try reflexivity.
  - apply key_eqb_true in Hab. destruct Hab as (k & Ha & Hb).
    assert (key_eqb b a = true) by (apply key_eqb_true; eauto). congruence.
  - apply key_eqb_true in Hba. destruct Hba as (k & Hb & Ha).
    assert (key_eqb a b = true) by (apply key_eqb_true; eauto). congruence.
Qed.

Lemma key_eqb_trans (a b c : value) :
  key_eqb a b = true -> key_eqb b c = true -> key_eqb a c = true.
Proof.
  intros Hab Hbc.
  apply key_eqb_true in Hab. destruct Hab as (k & Ha & Hb).
  apply key_eqb_true in Hbc. destruct Hbc as (k' & Hb' & Hc).
  apply key_eqb_true. exists k. split; congruence.
Qed.

(** Keys equal to one key agree on every other key. *)
Lemma key_eqb_subst (a b c : value) :
  key_eqb a b = true -> key_eqb a c = key_eqb b c.
Proof.
  intros Hab.
  destruct (key_eqb a c) eqn:Hac; destruct (key_eqb b c) eqn:Hbc; try reflexivity.
  - rewrite key_eqb_sym in Hab.
    rewrite (key_eqb_trans _ _ _ Hab Hac) in Hbc. discriminate.
  - rewrite (key_eqb_trans _ _ _ Hab Hbc) in Hac. discriminate.
Qed.

Lemma hashable_py_hash (v : value) : hashable v = true <-> exists k, py_hash v = Ok k.
Proof.
  destruct v; simpl; split; intros H; eauto; try discriminate;
    destruct H as (k & H); discriminate.
Qed.

(** ** The tests dict *)

Lemma find_snoc {A : Type} (f : A -> bool) (l : list A) (x : A) :
  find f (l ++ [x]) =
  match find f l with
  | Some y => Some y
  | None => if f x then Some x else None
  end.
Proof.
  induction l as [|y l IH]; simpl.
  - reflexivity.
  - destruct (f y); [reflexivity | exact IH].
Qed.

Lemma dict_find_store (k' : value) (t : SideTest) (d : test_dict) (k : value) :
  dict_find k (dict_store k' t d) =
  if key_eqb k' k then Some t else dict_find k d.
Proof.
  induction d as [|[k0 t0] d IH]; simpl.
  - reflexivity.
  - destruct (key_eqb k0 k') eqn:H0; simpl.
    + rewrite (key_eqb_subst _ _ k H0).
      destruct (key_eqb k' k); reflexivity.
    + rewrite IH.
      destruct (key_eqb k0 k) eqn:H0k; [|reflexivity].
      destruct (key_eqb k' k) eqn:H'k; [|reflexivity].
      rewrite (key_eqb_sym k' k) in H'k.
      rewrite (key_eqb_trans _ _ _ H0k H'k) in H0. discriminate.
Qed.

Lemma dict_comp_hashable (ts : list SideTest) (d d' : test_dict) :
  dict_comp ts d = Ok d' -> Forall (fun t => hashable (test_id t) = true) ts.
Proof.
  revert d; induction ts as [|t ts IH]; intros d H; simpl in H.
  - constructor.
  - bind_inv H. constructor; [|eauto].
    apply hashable_py_hash; eauto.
Qed.

Lemma dict_comp_total (ts : list SideTest) (d : test_dict) :
  Forall (fun t => hashable (test_id t) = true) ts ->
  exists d', dict_comp ts d = Ok d'.
Proof.
  intros H; revert d; induction H as [|t ts Ht _ IH]; intros d; simpl.
  - eauto.
  - apply hashable_py_hash in Ht. destruct Ht as (k & ->). simpl. apply IH.
Qed.

(** Looking a key up after the comprehension: the last test under that key,
    or what the dict held before. *)
Lemma dict_comp_find (ts : list SideTest) (d d' : test_dict) :
  dict_comp ts d = Ok d' ->
  forall k,
    dict_find k d' =
    match last_with_id k ts with
    | Some t => Some t
    | None => dict_find k d
    end.
Proof.
  unfold last_with_id.
  revert d; induction ts as [|t ts IH]; intros d H k; simpl in H.
  - injection H as <-. reflexivity.
  - bind_inv H. rewrite (IH _ H k). simpl rev. rewrite find_snoc.
    destruct (find _ (rev ts)); [reflexivity|].
    rewrite dict_find_store.
    destruct (key_eqb (test_id t) k); reflexivity.
Qed.

Lemma count_key_cons (k k0 : value) (t0 : SideTest) (d : test_dict) :
  count_key k ((k0, t0) :: d) = (if key_eqb k0 k then 1 else 0) + count_key k d.
Proof. unfold count_key; simpl. destruct (key_eqb k0 k); reflexivity. Qed.

Lemma count_key_store_other (k' : value) (t : SideTest) (d : test_dict) (k : value) :
  key_eqb k' k = false -> count_key k (dict_store k' t d) = count_key k d.
Proof.
  intros Hk. induction d as [|[k0 t0] d IH]; simpl.
  - rewrite count_key_cons, Hk. reflexivity.
  - destruct (key_eqb k0 k'); rewrite !count_key_cons; [reflexivity | now rewrite IH].
Qed.

Lemma keys_distinct_tail (e : value * SideTest) (d : test_dict) :
  keys_distinct (e :: d) -> keys_distinct d.
Proof.
  destruct e as [k0 t0]. intros H k. specialize (H k).
  rewrite count_key_cons in H. lia.
Qed.

Lemma keys_distinct_store (k' : value) (t : SideTest) (d : test_dict) :
  keys_distinct d -> keys_distinct (dict_store k' t d).
Proof.
  induction d as [|[k0 t0] d IH]; intros Hd k; simpl.
  - rewrite count_key_cons. unfold count_key; simpl. destruct (key_eqb k' k); lia.
  - destruct (key_eqb k0 k') eqn:H0.
    + specialize (Hd k). rewrite count_key_cons in *. exact Hd.
    + rewrite count_key_cons.
      pose proof (IH (keys_distinct_tail _ _ Hd) k) as IHk.
      destruct (key_eqb k0 k) eqn:H0k; [|lia].
      assert (Hk : key_eqb k' k = false).
      { destruct (key_eqb k' k) eqn:H'k; [|reflexivity].
        rewrite (key_eqb_sym k' k) in H'k.
        rewrite (key_eqb_trans _ _ _ H0k H'k) in H0. discriminate. }
      rewrite (count_key_store_other _ _ _ _ Hk).
      specialize (Hd k). rewrite count_key_cons, H0k in Hd. lia.
Qed.

Lemma dict_comp_distinct (ts : list SideTest) (d d' : test_dict) :
  dict_comp ts d = Ok d' -> keys_distinct d -> keys_distinct d'.
Proof.
  revert d; induction ts as [|t ts IH]; intros d H Hd; simpl in H.
  - injection H as <-. exact Hd.
  - bind_inv H. eapply IH; [exact H|]. now apply keys_distinct_store.
Qed.

Lemma dict_find_count (k : value) (d : test_dict) (t : SideTest) :
  dict_find k d = Some t -> 1 <= count_key k d.
Proof.
  induction d as [|[k0 t0] d IH]; simpl; intros H.
  - discriminate.
  - rewrite count_key_cons. destruct (key_eqb k0 k); [lia | apply IH in H; lia].
Qed.

Lemma item_of_snoc (ts : list SideTest) (t : SideTest) (e : value * SideTest) :
  item_of ts e -> item_of (ts ++ [t]) e.
Proof.
  intros ((t0 & Hin & Hid) & Hv & Hk). repeat split.
  - exists t0. split; [apply in_or_app; now left | assumption].
  - apply in_or_app; now left.
  - assumption.
Qed.

Lemma dict_store_items (pre : list SideTest) (t : SideTest) (d : test_dict) :
  hashable (test_id t) = true ->
  Forall (item_of pre) d ->
  Forall (item_of (pre ++ [t])) (dict_store (test_id t) t d).
Proof.
  intros Ht Hd.
  assert (Hnew : forall k, (exists t0, In t0 pre /\ test_id t0 = k) \/ k = test_id t ->
                 key_eqb k (test_id t) = true -> item_of (pre ++ [t]) (k, t)).
  { intros k Hk Heq. repeat split; simpl.
    - destruct Hk as [(t0 & Hin & Hid)| ->].
      + exists t0. split; [apply in_or_app; now left | assumption].
      + exists t. split; [apply in_or_app; right; now left | reflexivity].
    - apply in_or_app; right; now left.
    - assumption. }
  induction Hd as [|[k0 t0] d He Hd IH]; simpl.
  - constructor; [|constructor].
    apply Hnew; [now right|].
    apply hashable_py_hash in Ht. destruct Ht as (k & Hk).
    eapply key_eqb_refl; eassumption.
  - destruct (key_eqb k0 (test_id t)) eqn:H0.
    + constructor.
      * apply Hnew; [|assumption]. left. exact (proj1 He).
      * eapply Forall_impl; [|exact Hd]. intros e. apply item_of_snoc.
    + constructor; [now apply item_of_snoc | exact IH].
Qed.

Lemma dict_comp_items (ts pre : list SideTest) (d d' : test_dict) :
  dict_comp ts d = Ok d' ->
  Forall (item_of pre) d -> Forall (item_of (pre ++ ts)) d'.
Proof.
  revert pre d; induction ts as [|t ts IH]; intros pre d H Hd; simpl in H.
  - injection H as <-. now rewrite app_nil_r.
  - bind_inv H.
    replace (pre ++ t :: ts) with ((pre ++ [t]) ++ ts)
      by (rewrite <- app_assoc; reflexivity).
    eapply IH; [exact H|].
    apply dict_store_items; [|assumption].
    apply hashable_py_hash; eauto.
Qed.

(** ** What the builders can raise *)

Lemma bind_Raise {A B : Type} (c : result A) (k : A -> result B) (e : exn) :
  bind c k = Raise e -> c = Raise e \/ exists a, c = Ok a /\ k a = Raise e.
Proof.
  destruct c as [a|e']; simpl; intros H; [right; eauto | left; congruence].
Qed.

Lemma mapM_Raise {A B : Type} (f : A -> result B) (l : list A) (e : exn) :
  mapM f l = Raise e -> exists x, In x l /\ f x = Raise e.
Proof.
  induction l as [|x l IH]; simpl; intros H.
  - discriminate.
  - apply bind_Raise in H. destruct H as [H|(y & _ & H)].
    + exists x. auto.
    + apply bind_Raise in H. destruct H as [H|(ys & _ & H)]; [|discriminate].
      destruct (IH H) as (x' & Hin & Hx'). exists x'. auto.
Qed.

Lemma py_get_Raise (raw : value) (key : string) (default : value) (e : exn) :
  py_get raw key default = Raise e -> shape_error e.
Proof.
  destruct raw; simpl; intros H; try discriminate; injection H as <-; reflexivity.
Qed.

Lemma py_iter_Raise (v : value) (e : exn) : py_iter v = Raise e -> shape_error e.
Proof.
  destruct v; simpl; intros H; try discriminate; injection H as <-; exact I.
Qed.

Lemma py_hash_Raise (v : value) (e : exn) : py_hash v = Raise e -> shape_error e.
Proof.
  destruct v; simpl; intros H; try discriminate; injection H as <-; exact I.
Qed.

Ltac raise_step H :=
  apply bind_Raise in H;
  destruct H as [H|(? & _ & H)];
  [ first [ exact (py_get_Raise _ _ _ _ H)
          | exact (py_iter_Raise _ _ H)
          | exact (py_hash_Raise _ _ H)
          | idtac ]
  | ].

Lemma build_command_Raise (raw : value) (e : exn) :
  _build_command raw = Raise e -> shape_error e.
Proof.
  unfold _build_command. intros H.
  do 5 raise_step H. discriminate.
Qed.

Lemma build_test_Raise (raw : value) (e : exn) :
  _build_test raw = Raise e -> shape_error e.
Proof.
  unfold _build_test. intros H.
  do 2 raise_step H. raise_step H.
  - apply mapM_Raise in H. destruct H as (? & _ & H).
    exact (build_command_Raise _ _ H).
  - do 2 raise_step H. discriminate.
Qed.

Lemma build_suite_Raise (raw : value) (e : exn) :
  _build_suite raw = Raise e -> shape_error e.
Proof.
  unfold _build_suite. intros H.
  do 7 raise_step H. discriminate.
Qed.

Lemma dict_comp_Raise (ts : list SideTest) (d : test_dict) (e : exn) :
  dict_comp ts d = Raise e -> shape_error e.
Proof.
  revert d; induction ts as [|t ts IH]; intros d H; simpl in H.
  - discriminate.
  - raise_step H. eauto.
Qed.

(** ** Records of the expected shape are built *)

Lemma array_field_list (ok : value -> bool) (d : list (string * value)) (key : string) :
  array_field ok d key = true ->
  exists l, get_default d key (VList []) = VList l /\ forallb ok l = true.
Proof.
  unfold array_field, get_default.
  destruct (dict_lookup key d) as [v|].
  - destruct v; try discriminate. eauto.
  - exists []. auto.
Qed.

Lemma build_test_shaped (raw : value) :
  test_shaped raw = true ->
  exists t, _build_test raw = Ok t /\ hashable (test_id t) = true.
Proof.
  destruct raw as [| | | | | |d]; try discriminate. simpl.
  intros H. apply andb_prop in H. destruct H as (Hc & Hi).
  apply array_field_list in Hc. destruct Hc as (l & Hl & Hall).
  rewrite build_test_dict, Hl. simpl.
  destruct (mapM_total _build_command l) as (cs & Hcs).
  - intros x Hx. rewrite forallb_forall in Hall. specialize (Hall x Hx).
    destruct x; try discriminate. rewrite build_command_dict. eauto.
  - rewrite Hcs. simpl. eauto.
Qed.

Lemma build_suite_shaped (raw : value) :
  suite_shaped raw = true -> exists s, _build_suite raw = Ok s.
Proof.
  destruct raw as [| | | | | |d]; try discriminate. simpl.
  intros H. apply array_field_list in H. destruct H as (l & Hl & _).
  rewrite build_suite_dict, Hl. simpl. eauto.
Qed.

(* ================================================================== *)
(** ** The loader *)

Section LoaderFacts.

Variable json_loads : string -> decode_error + value.

(** What an accepted call went through, step by step. *)
Lemma load_Ok (payload default_name : value) (p : SideProject) :
  load_side_project json_loads payload default_name = Ok p ->
  exists s d raw_tests ts raw_suites,
    payload = VStr s /\
    json_loads s = inr (VDict d) /\
    py_iter (get_default d "tests" (VList [])) = Ok raw_tests /\
    mapM _build_test raw_tests = Ok ts /\
    dict_comp ts [] = Ok (project_tests p) /\
    py_iter (get_default d "suites" (VList [])) = Ok raw_suites /\
    mapM _build_suite raw_suites = Ok (project_suites p) /\
    project_id p = get_default d "id" (VStr "") /\
    project_name p =
      py_or (py_or (get_default d "name" VNone) default_name) (VStr "Unnamed Project") /\
    project_url p = get_default d "url" VNone.
Proof.
  destruct payload as [| | | |s| |]; try discriminate.
  unfold load_side_project, py_json_loads. intros H.
  destruct (json_loads s) as [e|raw] eqn:Hparse; [discriminate|].
  simpl in H. bind_inv H.
  apply py_get_Ok in Hx. destruct Hx as (d & -> & ->).
  simpl in H. bind_inv H. bind_inv H. bind_inv H. bind_inv H. bind_inv H.
  injection H as <-. simpl.
  exists s, d. do 3 eexists. repeat split; eauto.
Qed.

(** A document of the expected shape is accepted. *)
Lemma load_shaped (s : string) (default_name v : value) :
  json_loads s = inr v ->
  project_shaped v = true ->
  exists p, load_side_project json_loads (VStr s) default_name = Ok p.
Proof.
  intros Hparse Hshape.
  destruct v as [| | | | | |d]; try discriminate. simpl in Hshape.
  apply andb_prop in Hshape. destruct Hshape as (Ht & Hs).
  apply array_field_list in Ht. destruct Ht as (lt & Hlt & Hallt).
  apply array_field_list in Hs. destruct Hs as (ls & Hls & Halls).
  rewrite forallb_forall in Hallt, Halls.
  destruct (mapM_total _build_test lt) as (ts & Hts).
  { intros x Hx. destruct (build_test_shaped x (Hallt x Hx)) as (t & Hb & _). eauto. }
  destruct (dict_comp_total ts []) as (m & Hm).
  { apply Forall_forall. intros t Hin.
    destruct (mapM_In _ _ _ Hts t Hin) as (x & Hx & Hb).
    destruct (build_test_shaped x (Hallt x Hx)) as (t' & Hb' & Hh). congruence. }
  destruct (mapM_total _build_suite ls) as (ss & Hss).
  { intros x Hx. exact (build_suite_shaped x (Halls x Hx)). }
  unfold load_side_project, py_json_loads. rewrite Hparse.
  unfold get_default in Hlt, Hls.
  cbn [bind py_get]. rewrite Hlt. cbn [bind py_iter]. rewrite Hts.
  cbn [bind]. rewrite Hm. cbn [bind]. rewrite Hls.
  cbn [bind py_iter]. rewrite Hss. cbn [bind]. eauto.
Qed.

(** What a call on a str can raise: the decoder's error, or a shape error
    of the decoded document. *)
Lemma load_str_Raise (s : string) (default_name : value) (e : exn) :
  load_side_project json_loads (VStr s) default_name = Raise e ->
  (exists de, json_loads s = inl de /\ e = JSONDecodeError de) \/
  (exists v, json_loads s = inr v /\ shape_error e).
Proof.
  unfold load_side_project, py_json_loads. intros H.
  destruct (json_loads s) as [de|v].
  - left. exists de. simpl in H. injection H as <-. auto.
  - right. exists v. split; [reflexivity|]. cbn [bind] in H.
    do 3 raise_step H. raise_step H.
    { apply mapM_Raise in H. destruct H as (? & _ & H).
      exact (build_test_Raise _ _ H). }
    raise_step H.
    { exact (dict_comp_Raise _ _ _ H). }
    do 2 raise_step H. raise_step H.
    { apply mapM_Raise in H. destruct H as (? & _ & H).
      exact (build_suite_Raise _ _ H). }
    do 2 raise_step H. discriminate.
Qed.

End LoaderFacts.

(* ================================================================== *)
(** ** The model on small inputs *)

Example py_chars_utf8 : py_chars "a는b" = ["a"; "는"; "b"].
Proof. reflexivity. Qed.

Example truthy_values :
  map truthy [VNone; VBool false; VInt 0; VFloat 0; VFloat (-0); VStr ""; VList [];
              VDict []; VInt 7; VFloat PrimFloat.nan; VStr "0"; VList [VNone]]
  = [false; false; false; false; false; false; false; false; true; true; true; true].
Proof. vm_compute. reflexivity. Qed.

(** [True], [1] and [1.0] are one dict key; [0] and [None] are two. *)
Example key_eqb_numbers :
  key_eqb (VBool true) (VInt 1) = true /\
  key_eqb (VInt 1) (VFloat 1) = true /\
  key_eqb (VFloat 1.5) (VInt 1) = false /\
  key_eqb (VInt 0) VNone = false /\
  key_eqb (VList []) (VList []) = false.
Proof. repeat split; vm_compute; reflexivity. Qed.

Example reader_repeated_key :
  json_loads_ref (json_text "{'a': 1, 'b': [true, null, -20], 'a': 'x'}")
  = inr (VDict [("a", VStr "x"); ("b", VList [VBool true; VNone; VInt (-20)])]).
Proof. vm_compute. reflexivity. Qed.

Example reader_trailing_comma :
  json_loads_ref "[1,]"
  = inl {| de_msg := "Expecting value"; de_doc := "[1,]"; de_pos := 3 |}.
Proof. vm_compute. reflexivity. Qed.

(** An empty str can be iterated, so it passes for an empty list of tests;
    a str with characters cannot, since a character has no [get]. *)
Example load_tests_str :
  (exists p, load_side_project json_loads_ref (VStr (json_text "{'tests': ''}")) VNone
             = Ok p) /\
  load_side_project json_loads_ref (VStr (json_text "{'tests': 'ab'}")) VNone
    = Raise (AttributeError "str" "get").
Proof. split; [eexists|]; vm_compute; reflexivity. Qed.

(** The ids [true] and [1] are one key: the item keeps the first key and
    takes the last test. *)
Example load_ids_true_and_one :
  exists p,
    load_side_project json_loads_ref
      (VStr (json_text "{'tests': [{'id': true, 'name': 'x'}, {'id': 1, 'name': 'y'}]}"))
      VNone = Ok p /\
    project_tests p
      = [(VBool true,
          {| test_id := VInt 1; test_name := VStr "y"; test_commands := [] |})].
Proof. eexists. split; vm_compute; reflexivity. Qed.

(** A test id that is a list cannot be a dict key. *)
Example load_unhashable_id :
  load_side_project json_loads_ref (VStr (json_text "{'tests': [{'id': []}]}")) VNone
    = Raise (TypeError (Unhashable "list")).
Proof. vm_compute. reflexivity. Qed.

(* ================================================================== *)
(** * The claims *)

(** ** C1: which documents are accepted *)

(** C1, as stated, fails: valid JSON is not always accepted.  The document
    [[]] decodes to a list, which has no [get], and the loader raises
    AttributeError; the document [{"tests": 5}] decodes to an object whose
    [tests] is not iterable, and the loader raises a TypeError that is not
    the guard's. *)
Lemma load_rejects_valid_json :
  json_loads_ref "[]" = inr (VList []) /\
  load_side_project json_loads_ref (VStr "[]") VNone
    = Raise (AttributeError "list" "get") /\
  json_loads_ref doc_tests_number = inr (VDict [("tests", VInt 5)]) /\
  load_side_project json_loads_ref (VStr doc_tests_number) VNone
    = Raise (TypeError (NotIterable "int")).
Proof. repeat split; vm_compute; reflexivity. Qed.

(** C1, amended: a str that decodes to an object whose [tests], when
    present, is an array of objects (each with a hashable id and with
    [commands], when present, an array of objects) and whose [suites], when
    present, is an array of objects (each with [tests], when present, an
    array) is accepted and a project is returned, whatever fields are
    missing, whatever the scalar fields hold and whichever test ids the
    suites name.  On any decoded document the only exceptions are those of a
    wrong shape: AttributeError for a record that is not an object, TypeError
    for a field that is not iterable or a test id that is not hashable. *)
Theorem load_accepts_shaped_documents :
  forall (json_loads : string -> decode_error + value)
         (s : string) (default_name v : value),
    json_loads s = inr v ->
    (project_shaped v = true ->
     exists p, load_side_project json_loads (VStr s) default_name = Ok p) /\
    (forall e, load_side_project json_loads (VStr s) default_name = Raise e ->
               shape_error e).
Proof.
  intros json_loads s default_name v Hparse. split.
  - intros Hshape. eapply load_shaped; eassumption.
  - intros e H. apply load_str_Raise in H.
    destruct H as [(de & Hde & _)|(v' & _ & He)]; [congruence | exact He].
Qed.

Lemma load_accepts_shaped_documents_witness :
  json_loads_ref doc_dangling_suite = inr raw_dangling_suite /\
  project_shaped raw_dangling_suite = true /\
  exists p, load_side_project json_loads_ref (VStr doc_dangling_suite) VNone = Ok p.
Proof.
  assert (Hparse : json_loads_ref doc_dangling_suite = inr raw_dangling_suite)
    by (vm_compute; reflexivity).
  assert (Hshape : project_shaped raw_dangling_suite = true) by reflexivity.
  repeat split; try assumption.
  exact (proj1 (load_accepts_shaped_documents
                  json_loads_ref doc_dangling_suite VNone raw_dangling_suite Hparse)
               Hshape).
Defined.

(** ** C2: string-typed fields *)

Lemma string_field_get (d : list (string * value)) (key : string) :
  string_field d key (get_default d key (VStr "")).
Proof.
  unfold string_field, get_default.
  destruct (dict_lookup key d); split; intros; congruence.
Qed.

Lemma collapsed_field_get (d : list (string * value)) (key : string) :
  collapsed_field d key (py_or (get_default d key (VStr "")) (VStr "")).
Proof.
  unfold collapsed_field, get_default, py_or.
  destruct (dict_lookup key d) as [v|]; repeat split; intros; try discriminate;
    try reflexivity.
  - injection H as ->. reflexivity.
  - injection H as ->. reflexivity.
  - injection H as ->. rewrite H0. reflexivity.
  - injection H as ->. rewrite H0. reflexivity.
  - injection H as ->. reflexivity.
Qed.

(** C2, as stated, fails: an explicit null under [id], [command] or [name]
    is not turned into the empty string.  Every string-typed field of this
    accepted project is None, except the target and the value of its
    command. *)
Lemma load_keeps_null_fields :
  load_side_project json_loads_ref (VStr doc_null_fields) VNone =
  Ok {| project_id := VNone;
        project_name := VStr "Unnamed Project";
        project_url := VNone;
        project_tests :=
          [(VNone,
            {| test_id := VNone;
               test_name := VNone;
               test_commands :=
                 [{| cmd_id := VNone;
                     cmd_command := VNone;
                     cmd_target := VStr "";
                     cmd_value := VStr "";
                     cmd_comment := VNone |}] |})];
        project_suites :=
          [{| suite_id := VNone;
              suite_name := VNone;
              suite_tests := [];
              suite_persist_session := false;
              suite_parallel := false;
              suite_timeout := VNone |}] |}.
Proof. vm_compute. reflexivity. Qed.

(** C2, amended: in every project the loader returns, each of [Project.id],
    [Test.id], [Test.name], [Suite.id], [Suite.name], [Command.id] and
    [Command.command] is the empty string when its raw key is absent and is
    the raw value itself, null included, when the key is present; each of
    [Command.target] and [Command.value] is the empty string when its raw
    key is absent or its raw value is null, the empty string or any other
    falsy value, and is the raw value when that is truthy, so these two are
    never null. *)
Theorem load_string_fields :
  forall (json_loads : string -> decode_error + value)
         (payload default_name : value) (p : SideProject),
    load_side_project json_loads payload default_name = Ok p ->
    exists s d raw_tests raw_suites,
      payload = VStr s /\
      json_loads s = inr (VDict d) /\
      py_iter (get_default d "tests" (VList [])) = Ok raw_tests /\
      py_iter (get_default d "suites" (VList [])) = Ok raw_suites /\
      string_field d "id" (project_id p) /\
      (forall k t, In (k, t) (project_tests p) ->
         exists rt raw_commands,
           In (VDict rt) raw_tests /\
           py_iter (get_default rt "commands" (VList [])) = Ok raw_commands /\
           string_field rt "id" (test_id t) /\
           string_field rt "name" (test_name t) /\
           forall c, In c (test_commands t) ->
             cmd_target c <> VNone /\
             cmd_value c <> VNone /\
             exists rc,
               In (VDict rc) raw_commands /\
               string_field rc "id" (cmd_id c) /\
               string_field rc "command" (cmd_command c) /\
               collapsed_field rc "target" (cmd_target c) /\
               collapsed_field rc "value" (cmd_value c)) /\
      (forall su, In su (project_suites p) ->
         exists rs,
           In (VDict rs) raw_suites /\
           string_field rs "id" (suite_id su) /\
           string_field rs "name" (suite_name su)).
Proof.
  intros json_loads payload default_name p H.
  apply load_Ok in H.
  destruct H as (s & d & raw_tests & ts & raw_suites & -> & Hparse & Hit & Hts
                 & Hmap & His & Hss & Hid & _ & _).
  exists s, d, raw_tests, raw_suites.
  split; [reflexivity|]. split; [assumption|]. split; [assumption|].
  split; [assumption|]. split; [rewrite Hid; apply string_field_get|]. split.
  - intros k t Hin.
    pose proof (dict_comp_items ts [] [] _ Hmap (Forall_nil _)) as Hitems.
    rewrite Forall_forall in Hitems. destruct (Hitems _ Hin) as (_ & Hv & _).
    simpl in Hv.
    destruct (mapM_In _ _ _ Hts t Hv) as (raw & Hraw & Hb).
    apply build_test_Ok in Hb.
    destruct Hb as (rt & it & -> & Hci & Hcs & Htid & Htn).
    exists rt, it.
    split; [assumption|]. split; [assumption|].
    split; [rewrite Htid; apply string_field_get|].
    split; [rewrite Htn; apply string_field_get|].
    intros c Hc.
    destruct (mapM_In _ _ _ Hcs c Hc) as (rawc & Hinc & Hbc).
    destruct (build_command_Ok _ _ Hbc) as (rc & ->).
    rewrite build_command_dict in Hbc. injection Hbc as <-. simpl.
    split; [apply py_or_not_none|]. split; [apply py_or_not_none|].
    exists rc. split; [assumption|].
    split; [apply string_field_get|].
    split; [apply string_field_get|].
    split; apply collapsed_field_get.
  - intros su Hin.
    destruct (mapM_In _ _ _ Hss su Hin) as (raw & Hraw & Hb).
    apply build_suite_Ok in Hb.
    destruct Hb as (rs & -> & _ & Hsid & Hsn & _).
    exists rs. rewrite Hsid, Hsn.
    split; [assumption|]. split; apply string_field_get.
Qed.

Lemma load_string_fields_witness :
  exists p,
    load_side_project json_loads_ref (VStr doc_missing_fields) VNone = Ok p /\
    project_id p = VStr "".
Proof.
  destruct (load_side_project json_loads_ref (VStr doc_missing_fields) VNone)
    as [p|e] eqn:H; [|vm_compute in H; discriminate].
  exists p. split; [reflexivity|].
  destruct (load_string_fields json_loads_ref _ _ _ H)
    as (s & d & rt & rs & Hs & Hd & _ & _ & Hid & _).
  injection Hs as <-. vm_compute in Hd. injection Hd as <-.
  apply (proj1 Hid). reflexivity.
Defined.

(** ** C3: the project name *)

Lemma resolved_name_or (raw_name : option value) (default_name : value) :
  py_or (py_or (match raw_name with Some v => v | None => VNone end) default_name)
        (VStr "Unnamed Project")
  = resolved_name raw_name default_name.
Proof.
  unfold resolved_name, py_or.
  destruct raw_name as [n|]; simpl.
  - destruct (truthy n) eqn:Hn; simpl; rewrite ?Hn; [reflexivity|].
    destruct (truthy default_name) eqn:Hd; simpl; rewrite ?Hd; reflexivity.
  - destruct (truthy default_name) eqn:Hd; simpl; rewrite ?Hd; reflexivity.
Qed.

(** C3, as stated, fails: with no raw name and the default name [""], which
    is present, the stated order gives [""] while the loader gives
    ["Unnamed Project"]. *)
Lemma load_empty_default_name :
  json_loads_ref "{}" = inr (VDict []) /\
  load_side_project json_loads_ref (VStr "{}") (VStr "") =
  Ok {| project_id := VStr "";
        project_name := VStr "Unnamed Project";
        project_url := VNone;
        project_tests := [];
        project_suites := [] |} /\
  spec_name (dict_lookup "name" []) (VStr "") = VStr "".
Proof. repeat split; vm_compute; reflexivity. Qed.

(** C3, amended: the name of a loaded project is the raw name when that is
    present and truthy (a non-empty string), otherwise the default name when
    that is truthy (present and non-empty), otherwise ["Unnamed Project"].
    This is the stated order whenever the raw name is absent or a string and
    the default name is absent or a non-empty string. *)
Theorem load_name_priority :
  forall (json_loads : string -> decode_error + value)
         (payload default_name : value) (p : SideProject),
    load_side_project json_loads payload default_name = Ok p ->
    exists s d,
      payload = VStr s /\
      json_loads s = inr (VDict d) /\
      project_name p = resolved_name (dict_lookup "name" d) default_name /\
      ((dict_lookup "name" d = None \/ exists n, dict_lookup "name" d = Some (VStr n)) ->
       (default_name = VNone \/ exists c x, default_name = VStr (String c x)) ->
       project_name p = spec_name (dict_lookup "name" d) default_name).
Proof.
  intros json_loads payload default_name p H.
  apply load_Ok in H.
  destruct H as (s & d & _ & _ & _ & -> & Hparse & _ & _ & _ & _ & _ & _ & Hname & _).
  exists s, d.
  split; [reflexivity|]. split; [assumption|].
  assert (Hres : project_name p = resolved_name (dict_lookup "name" d) default_name).
  { rewrite Hname. unfold get_default. apply resolved_name_or. }
  split; [exact Hres|].
  intros Hraw Hdef. rewrite Hres.
  destruct Hraw as [->|(n & ->)]; destruct Hdef as [->|(c & x & ->)];
    try reflexivity; destruct n; reflexivity.
Qed.

Lemma load_name_priority_witness :
  (exists p,
     load_side_project json_loads_ref (VStr doc_empty_name) (VStr "Fallback") = Ok p /\
     project_name p = VStr "Fallback") /\
  (exists p,
     load_side_project json_loads_ref (VStr "{}") VNone = Ok p /\
     project_name p = VStr "Unnamed Project").
Proof.
  split.
  - destruct (load_side_project json_loads_ref (VStr doc_empty_name) (VStr "Fallback"))
      as [p|e] eqn:H; [|vm_compute in H; discriminate].
    exists p. split; [reflexivity|].
    destruct (load_name_priority json_loads_ref _ _ _ H) as (s & d & Hs & Hd & Hn & _).
    injection Hs as <-. vm_compute in Hd. injection Hd as <-.
    rewrite Hn. reflexivity.
  - destruct (load_side_project json_loads_ref (VStr "{}") VNone)
      as [p|e] eqn:H; [|vm_compute in H; discriminate].
    exists p. split; [reflexivity|].
    destruct (load_name_priority json_loads_ref _ _ _ H) as (s & d & Hs & Hd & Hn & _).
    injection Hs as <-. vm_compute in Hd. injection Hd as <-.
    rewrite Hn. reflexivity.
Defined.

(** ** C4: the tests map *)

(** C4: in every loaded project the tests map holds, under each id of a
    built test, exactly one item, whose value is the test built from the
    last record with that id in input order; every key of the map is the id
    of a built test, and every id of a built test is a key of the map. *)
Theorem tests_map_last_write_wins :
  forall (json_loads : string -> decode_error + value)
         (payload default_name : value) (p : SideProject),
    load_side_project json_loads payload default_name = Ok p ->
    exists s d raw_tests ts,
      payload = VStr s /\
      json_loads s = inr (VDict d) /\
      py_iter (get_default d "tests" (VList [])) = Ok raw_tests /\
      mapM _build_test raw_tests = Ok ts /\
      (forall k, dict_find k (project_tests p) = last_with_id k ts) /\
      (forall t, In t ts -> count_key (test_id t) (project_tests p) = 1) /\
      (forall t, In t ts ->
         exists t', dict_find (test_id t) (project_tests p) = Some t' /\
                    last_with_id (test_id t) ts = Some t') /\
      (forall k t', In (k, t') (project_tests p) ->
         exists t, In t ts /\ test_id t = k).
Proof.
  intros json_loads payload default_name p H.
  apply load_Ok in H.
  destruct H as (s & d & raw_tests & ts & _ & -> & Hparse & Hit & Hts & Hmap & _).
  exists s, d, raw_tests, ts.
  split; [reflexivity|]. split; [assumption|]. split; [assumption|].
  split; [assumption|].
  assert (Hfind : forall k, dict_find k (project_tests p) = last_with_id k ts).
  { intros k. rewrite (dict_comp_find _ _ _ Hmap k).
    destruct (last_with_id k ts); reflexivity. }
  assert (Hkey : forall t, In t ts ->
            exists t', dict_find (test_id t) (project_tests p) = Some t' /\
                       last_with_id (test_id t) ts = Some t').
  { intros t Hin. rewrite Hfind.
    destruct (last_with_id (test_id t) ts) as [t'|] eqn:Hlast; [eauto|].
    unfold last_with_id in Hlast.
    pose proof (find_none _ _ Hlast t (proj1 (in_rev ts t) Hin)) as Hno.
    simpl in Hno.
    pose proof (dict_comp_hashable _ _ _ Hmap) as Hhash.
    rewrite Forall_forall in Hhash.
    destruct (proj1 (hashable_py_hash _) (Hhash t Hin)) as (hk & Hhk).
    rewrite (key_eqb_refl _ _ Hhk) in Hno. discriminate. }
  split; [exact Hfind|]. split; [|split; [exact Hkey|]].
  - intros t Hin. destruct (Hkey t Hin) as (t' & Hf & _).
    pose proof (dict_find_count _ _ _ Hf) as Hge.
    assert (Hle : keys_distinct (project_tests p)).
    { eapply dict_comp_distinct; [exact Hmap|]. intros k. unfold count_key. simpl. lia. }
    specialize (Hle (test_id t)). lia.
  - intros k t' Hin.
    pose proof (dict_comp_items ts [] [] _ Hmap (Forall_nil _)) as Hitems.
    rewrite Forall_forall in Hitems.
    destruct (Hitems _ Hin) as ((t & Ht & Hid) & _). eauto.
Qed.

Lemma tests_map_last_write_wins_witness :
  exists p,
    load_side_project json_loads_ref (VStr doc_duplicate_ids) VNone = Ok p /\
    dict_find (VStr "a") (project_tests p)
      = Some {| test_id := VStr "a"; test_name := VStr "last"; test_commands := [] |} /\
    length (project_tests p) = 2.
Proof.
  destruct (load_side_project json_loads_ref (VStr doc_duplicate_ids) VNone)
    as [p|e] eqn:H; [|vm_compute in H; discriminate].
  exists p. split; [reflexivity|].
  destruct (tests_map_last_write_wins json_loads_ref _ _ _ H)
    as (s & d & raw_tests & ts & Hs & Hd & Hit & Hts & Hfind & _).
  injection Hs as <-. vm_compute in Hd. injection Hd as <-.
  vm_compute in Hit. injection Hit as <-.
  vm_compute in Hts. injection Hts as <-.
  split; [rewrite Hfind; reflexivity|].
  vm_compute in H. injection H as <-. reflexivity.
Defined.

(** ** C5: target and value of a command *)

(** C5: for every raw command record, the target of the built command, and
    likewise its value, is the empty string when the raw field is missing,
    null, the empty string or any other falsy value, and is the raw value
    unchanged when that is truthy, as a non-empty string is. *)
Theorem build_command_target_value :
  forall d : list (string * value),
    exists c,
      _build_command (VDict d) = Ok c /\
      collapsed_field d "target" (cmd_target c) /\
      collapsed_field d "value" (cmd_value c).
Proof.
  intros d. rewrite build_command_dict. eexists. split; [reflexivity|].
  simpl. split; apply collapsed_field_get.
Qed.

Lemma build_command_target_value_witness :
  exists c,
    _build_command (VDict raw_command_sample) = Ok c /\
    cmd_target c = VStr "css=button" /\
    cmd_value c = VStr "".
Proof.
  destruct (build_command_target_value raw_command_sample)
    as (c & Hc & (_ & _ & _ & _ & _ & Ht) & (_ & Hv & _)).
  exists c. split; [exact Hc|]. split.
  - apply (Ht "c"%char "ss=button"). reflexivity.
  - apply Hv. reflexivity.
Defined.

(** ** C6: the test ids of a suite *)

(** C6: for every raw suite record, the test-id list of the built suite is
    the raw [tests] array itself, element for element and in order (the
    empty list when the key is missing); the suites of a loaded project are
    built from the raw suite records alone, whatever the tests map holds;
    and loading the example project whose suite names the id [missing]
    succeeds with the list [t1, missing] unchanged, although the tests map
    has no such key. *)
Theorem build_suite_tests_verbatim :
  (forall d l, dict_lookup "tests" d = Some (VList l) ->
     exists su, _build_suite (VDict d) = Ok su /\ suite_tests su = l) /\
  (forall d, dict_lookup "tests" d = None ->
     exists su, _build_suite (VDict d) = Ok su /\ suite_tests su = []) /\
  (forall json_loads payload default_name p,
     load_side_project json_loads payload default_name = Ok p ->
     exists s d raw_suites,
       payload = VStr s /\
       json_loads s = inr (VDict d) /\
       py_iter (get_default d "suites" (VList [])) = Ok raw_suites /\
       mapM _build_suite raw_suites = Ok (project_suites p)) /\
  (forall json_loads default_name,
     json_loads doc_dangling_suite = inr raw_dangling_suite ->
     exists p,
       load_side_project json_loads (VStr doc_dangling_suite) default_name = Ok p /\
       map suite_tests (project_suites p) = [[VStr "t1"; VStr "missing"]] /\
       dict_find (VStr "missing") (project_tests p) = None).
Proof.
  split; [|split; [|split]].
  - intros d l Hl. rewrite build_suite_dict. unfold get_default. rewrite Hl.
    simpl. eauto.
  - intros d Hl. rewrite build_suite_dict. unfold get_default. rewrite Hl.
    simpl. eauto.
  - intros json_loads payload default_name p H. apply load_Ok in H.
    destruct H as (s & d & _ & _ & raw_suites & -> & Hparse & _ & _ & _ & His & Hss & _).
    exists s, d, raw_suites. auto.
  - intros json_loads default_name Hparse.
    unfold load_side_project, py_json_loads. rewrite Hparse.
    eexists. split; [reflexivity|]. split; reflexivity.
Qed.

Lemma build_suite_tests_verbatim_witness :
  json_loads_ref doc_dangling_suite = inr raw_dangling_suite /\
  exists p,
    load_side_project json_loads_ref (VStr doc_dangling_suite) VNone = Ok p /\
    map suite_tests (project_suites p) = [[VStr "t1"; VStr "missing"]] /\
    dict_find (VStr "missing") (project_tests p) = None.
Proof.
  assert (Hparse : json_loads_ref doc_dangling_suite = inr raw_dangling_suite)
    by (vm_compute; reflexivity).
  split; [exact Hparse|].
  exact (proj2 (proj2 (proj2 build_suite_tests_verbatim)) json_loads_ref VNone Hparse).
Defined.

(** ** C7: the two error kinds *)

(** C7, as stated, fails.  The guard raises the builtin TypeError, and a
    str argument can raise TypeError too: the document [{"tests": 5}]
    decodes to an object whose [tests] is not iterable.  And text that is
    not JSON is not always refused: [json.loads] reads [NaN], so the
    document [NaN] gets past the decoder and fails on [get] with
    AttributeError, and an object holding [NaN] is loaded. *)
Lemma load_str_raises_type_error :
  is_str (VStr doc_tests_number) = true /\
  load_side_project json_loads_ref (VStr doc_tests_number) VNone
    = Raise (TypeError (NotIterable "int")) /\
  load_side_project json_loads_ref (VStr "NaN") VNone
    = Raise (AttributeError "float" "get") /\
  load_side_project json_loads_ref (VStr doc_nan_url) VNone
    = Ok {| project_id := VStr "";
            project_name := VStr "Unnamed Project";
            project_url := VFloat PrimFloat.nan;
            project_tests := [];
            project_suites := [] |}.
Proof. repeat split; vm_compute; reflexivity. Qed.

(** C7, amended: the loader raises the TypeError of its guard, the one with
    the guard's message, exactly when its argument is not a str (a str
    argument can still raise a TypeError of another origin, as above); and
    it raises JSONDecodeError exactly when [json.loads] rejects the text, as
    it does for [not json], the exception being the decoder's own.  In both
    cases the outcome is the exception alone, with no project. *)
Theorem load_error_kinds :
  forall json_loads : string -> decode_error + value,
    (forall payload default_name,
       load_side_project json_loads payload default_name
         = Raise (TypeError (Message payload_type_message))
       <-> is_str payload = false) /\
    (forall s default_name e,
       json_loads s = inl e <->
       load_side_project json_loads (VStr s) default_name = Raise (JSONDecodeError e)).
Proof.
  intros json_loads. split.
  - intros payload default_name. split.
    + destruct payload; try reflexivity.
      intros H. apply load_str_Raise in H.
      destruct H as [(de & _ & He)|(v & _ & He)]; [discriminate | contradiction].
    + destruct payload; try reflexivity. discriminate.
  - intros s default_name e. split.
    + intros H. unfold load_side_project, py_json_loads. rewrite H. reflexivity.
    + intros H. apply load_str_Raise in H.
      destruct H as [(de & Hde & He)|(v & _ & He)]; [congruence | contradiction].
Qed.

Lemma load_error_kinds_witness :
  load_side_project json_loads_ref (VStr "not json") VNone
    = Raise (JSONDecodeError
               {| de_msg := "Expecting value"; de_doc := "not json"; de_pos := 0 |}) /\
  load_side_project json_loads_ref raw_dangling_suite VNone
    = Raise (TypeError (Message payload_type_message)).
Proof.
  split.
  - apply (proj2 (load_error_kinds json_loads_ref)). vm_compute. reflexivity.
  - apply (proj1 (load_error_kinds json_loads_ref)). reflexivity.
Defined.

(** ** C8: flags and timeout of a suite *)

(** C8: for every raw suite record that is built, [persist_session] and
    [parallel] are the truth values of the raw [persistSession] and
    [parallel], each false when the key is absent, and [timeout] is the raw
    [timeout] unchanged, None when the key is absent; a record is built
    whenever its [tests] can be iterated. *)
Theorem build_suite_flags_timeout :
  forall (d : list (string * value)) (raw_tests : list value),
    py_iter (get_default d "tests" (VList [])) = Ok raw_tests ->
    exists su,
      _build_suite (VDict d) = Ok su /\
      suite_persist_session su =
        match dict_lookup "persistSession" d with
        | Some v => truthy v
        | None => false
        end /\
      suite_parallel su =
        match dict_lookup "parallel" d with
        | Some v => truthy v
        | None => false
        end /\
      suite_timeout su =
        match dict_lookup "timeout" d with
        | Some v => v
        | None => VNone
        end.
Proof.
  intros d raw_tests Hit. rewrite build_suite_dict, Hit. simpl.
  eexists. split; [reflexivity|]. simpl. unfold get_default.
  repeat split.
  - destruct (dict_lookup "persistSession" d); reflexivity.
  - destruct (dict_lookup "parallel" d); reflexivity.
Qed.

Lemma build_suite_flags_timeout_witness :
  exists su,
    _build_suite (VDict raw_suite_sample) = Ok su /\
    suite_persist_session su = true /\
    suite_parallel su = false /\
    suite_timeout su = VInt 300.
Proof.
  exact (build_suite_flags_timeout raw_suite_sample [VStr "t1"; VStr "missing"] eq_refl).
Defined.

(** ** C9: the commands of a test *)

(** C9: for every raw test record whose [commands] is the list [l] (the
    empty list when the key is missing), the built test's commands are [l]
    mapped through the command builder: same length, same order, the i-th
    command being the build of the i-th raw record; and the test is built
    whenever every element of [l] is an object. *)
Theorem build_test_commands_in_order :
  forall (d : list (string * value)) (l : list value),
    get_default d "commands" (VList []) = VList l ->
    (dict_lookup "commands" d = None -> l = []) /\
    (forallb is_dict l = true -> exists t, _build_test (VDict d) = Ok t) /\
    (forall t, _build_test (VDict d) = Ok t ->
       mapM _build_command l = Ok (test_commands t) /\
       length (test_commands t) = length l /\
       forall i raw, nth_error l i = Some raw ->
         exists c, nth_error (test_commands t) i = Some c /\ _build_command raw = Ok c).
Proof.
  intros d l Hl. split; [|split].
  - intros Hnone. unfold get_default in Hl. rewrite Hnone in Hl. congruence.
  - intros Hall. rewrite build_test_dict, Hl. simpl.
    destruct (mapM_total _build_command l) as (cs & Hcs).
    + intros x Hx. rewrite forallb_forall in Hall. specialize (Hall x Hx).
      destruct x; try discriminate. rewrite build_command_dict. eauto.
    + rewrite Hcs. simpl. eauto.
  - intros t Ht. apply build_test_Ok in Ht.
    destruct Ht as (d' & it & Hd & Hit & Hcs & _).
    injection Hd as <-. rewrite Hl in Hit. simpl in Hit. injection Hit as <-.
    split; [exact Hcs|]. split.
    + exact (mapM_length _ _ _ Hcs).
    + exact (mapM_nth _ _ _ Hcs).
Qed.

Lemma build_test_commands_in_order_witness :
  exists t,
    _build_test (VDict raw_test_sample) = Ok t /\
    length (test_commands t) = 2 /\
    exists c, nth_error (test_commands t) 1 = Some c /\
              _build_command (VDict raw_command_sample) = Ok c.
Proof.
  destruct (build_test_commands_in_order raw_test_sample _ eq_refl)
    as (_ & Hbuilt & Hcmds).
  destruct (Hbuilt eq_refl) as (t & Ht).
  exists t. split; [exact Ht|].
  destruct (Hcmds t Ht) as (_ & Hlen & Hnth).
  split; [exact Hlen|].
  exact (Hnth 1 (VDict raw_command_sample) eq_refl).
Defined.

(** ** C10: the name is never empty *)

(** C10: when the raw name is absent or a string and the default name is
    absent or a string, the name of the loaded project is a non-empty
    string; when both are empty or absent it is ["Unnamed Project"]. *)
Theorem load_name_nonempty :
  forall (json_loads : string -> decode_error + value)
         (s : string) (d : list (string * value)) (default_name : value)
         (p : SideProject),
    json_loads s = inr (VDict d) ->
    load_side_project json_loads (VStr s) default_name = Ok p ->
    (dict_lookup "name" d = None \/ exists n, dict_lookup "name" d = Some (VStr n)) ->
    (default_name = VNone \/ exists x, default_name = VStr x) ->
    exists r,
      project_name p = VStr r /\
      r <> "" /\
      ((dict_lookup "name" d = None \/ dict_lookup "name" d = Some (VStr "")) ->
       (default_name = VNone \/ default_name = VStr "") ->
       r = "Unnamed Project").
Proof.
  intros json_loads s d default_name p Hparse H Hraw Hdef.
  apply load_Ok in H.
  destruct H as (s' & d' & _ & _ & _ & Hs & Hparse' & _ & _ & _ & _ & _ & _ & Hname & _).
  injection Hs as <-. rewrite Hparse in Hparse'. injection Hparse' as <-.
  unfold get_default in Hname. rewrite resolved_name_or in Hname. rewrite Hname.
  destruct Hraw as [->|(n & ->)]; destruct Hdef as [->|(x & ->)]; simpl.
  - exists "Unnamed Project". repeat split; discriminate.
  - destruct x as [|c x]; simpl.
    + exists "Unnamed Project". repeat split; discriminate.
    + exists (String c x). repeat split; [discriminate|].
      intros _ [Hx|Hx]; discriminate.
  - destruct n as [|c n]; simpl.
    + exists "Unnamed Project". repeat split; discriminate.
    + exists (String c n). repeat split; [discriminate|].
      intros [Hn|Hn]; discriminate.
  - destruct n as [|c n]; simpl.
    + destruct x as [|c x]; simpl.
      * exists "Unnamed Project". repeat split; discriminate.
      * exists (String c x). repeat split; [discriminate|].
        intros _ [Hx|Hx]; discriminate.
    + exists (String c n). repeat split; [discriminate|].
      intros [Hn|Hn]; discriminate.
Qed.

Lemma load_name_nonempty_witness :
  exists p,
    load_side_project json_loads_ref (VStr doc_empty_name) (VStr "") = Ok p /\
    project_name p = VStr "Unnamed Project".
Proof.
  destruct (load_side_project json_loads_ref (VStr doc_empty_name) (VStr ""))
    as [p|e] eqn:H; [|vm_compute in H; discriminate].
  exists p. split; [reflexivity|].
  assert (Hparse : json_loads_ref doc_empty_name = inr (VDict [("name", VStr "")]))
    by (vm_compute; reflexivity).
  destruct (load_name_nonempty json_loads_ref _ _ _ _ Hparse H
              (or_intror (ex_intro _ "" eq_refl))
              (or_intror (ex_intro _ "" eq_refl)))
    as (r & Hr & _ & Hfallback).
  rewrite Hr, (Hfallback (or_intror eq_refl) (or_intror eq_refl)). reflexivity.
Defined.

(* ================================================================== *)
(** * Further properties of the loader *)

(** ** Which records the builders accept *)

Lemma mapM_Ok_each {A B : Type} (f : A -> result B) (l : list A) (ys : list B) :
  mapM f l = Ok ys -> forall x, In x l -> exists y, f x = Ok y.
Proof.
  intros H. apply mapM_Forall2 in H.
  induction H as [|x0 y0 l' ys' Hxy _ IH]; intros x Hx; simpl in Hx.
  - contradiction.
  - destruct Hx as [<-|Hx]; eauto.
Qed.

Lemma mapM_first_Raise {A B : Type} (f : A -> result B) (good : list A) (bad : A)
      (rest : list A) (e : exn) :
  (forall x, In x good -> exists y, f x = Ok y) ->
  f bad = Raise e ->
  mapM f (good ++ bad :: rest) = Raise e.
Proof.
  intros Hgood Hbad. induction good as [|x good IH]; simpl.
  - rewrite Hbad. reflexivity.
  - destruct (Hgood x (or_introl eq_refl)) as (y & ->). simpl.
    rewrite IH; [reflexivity|]. intros x' Hx'. apply Hgood. now right.
Qed.

Lemma py_iter_iterable (v : value) :
  iterable v = true <-> exists l, py_iter v = Ok l.
Proof.
  destruct v; simpl; split; intros H; eauto; try discriminate;
    destruct H as (l & H); discriminate.
Qed.

Lemma py_iter_not_iterable (v : value) :
  iterable v = false -> py_iter v = Raise (TypeError (NotIterable (type_name v))).
Proof. destruct v; simpl; intros H; try reflexivity; discriminate. Qed.

(** [_build_command] builds every object, whatever its keys, and raises
    AttributeError, naming the type, on any other value. *)
Theorem build_command_accepts_objects :
  forall raw : value,
    ((exists c, _build_command raw = Ok c) <-> is_dict raw = true) /\
    (is_dict raw = false ->
     _build_command raw = Raise (AttributeError (type_name raw) "get")).
Proof.
  intros raw. split; [split|].
  - intros (c & Hc). destruct (build_command_Ok _ _ Hc) as (d & ->). reflexivity.
  - destruct raw; try discriminate. intros _. rewrite build_command_dict. eauto.
  - apply build_command_not_dict.
Qed.

Lemma build_command_accepts_objects_witness :
  _build_command (VStr "click") = Raise (AttributeError "str" "get") /\
  exists c, _build_command (VDict []) = Ok c.
Proof.
  split.
  - exact (proj2 (build_command_accepts_objects (VStr "click")) eq_refl).
  - exact (proj2 (proj1 (build_command_accepts_objects (VDict []))) eq_refl).
Defined.

(** [_build_test] builds a record exactly when it is an object whose
    [commands] (the empty list when missing) can be iterated and yields
    objects only; so an empty str or an empty object under [commands] passes
    for no commands, and any non-empty str or object there is refused. *)
Theorem build_test_accepted_iff :
  forall raw : value,
    (exists t, _build_test raw = Ok t) <-> test_buildable raw = true.
Proof.
  intros raw. split.
  - intros (t & Ht). apply build_test_Ok in Ht.
    destruct Ht as (d & it & -> & Hit & Hcs & _). simpl. rewrite Hit.
    apply forallb_forall. intros x Hx.
    destruct (mapM_Ok_each _ _ _ Hcs x Hx) as (c & Hc).
    destruct (build_command_Ok _ _ Hc) as (dc & ->). reflexivity.
  - destruct raw as [| | | | | |d]; try discriminate. simpl.
    destruct (py_iter (get_default d "commands" (VList []))) as [it|e] eqn:Hit;
      [|discriminate].
    intros Hall. rewrite build_test_dict, Hit. simpl.
    destruct (mapM_total _build_command it) as (cs & Hcs).
    + intros x Hx. rewrite forallb_forall in Hall. specialize (Hall x Hx).
      destruct x; try discriminate. rewrite build_command_dict. eauto.
    + rewrite Hcs. simpl. eauto.
Qed.

Lemma build_test_accepted_iff_witness :
  (exists t, _build_test (VDict [("commands", VStr "")]) = Ok t) /\
  test_buildable (VDict [("commands", VStr "open")]) = false.
Proof.
  split.
  - exact (proj2 (build_test_accepted_iff (VDict [("commands", VStr "")])) eq_refl).
  - reflexivity.
Defined.

(** [_build_suite] builds a record exactly when it is an object whose
    [tests] (the empty list when missing) can be iterated; on an object
    whose [tests] is None, a bool or a number it raises the not-iterable
    TypeError, and on a value that is not an object AttributeError. *)
Theorem build_suite_accepted_iff :
  forall raw : value,
    ((exists su, _build_suite raw = Ok su) <-> suite_buildable raw = true) /\
    (is_dict raw = false ->
     _build_suite raw = Raise (AttributeError (type_name raw) "get")) /\
    (forall d, raw = VDict d ->
       iterable (get_default d "tests" (VList [])) = false ->
       _build_suite raw =
       Raise (TypeError (NotIterable (type_name (get_default d "tests" (VList [])))))).
Proof.
  intros raw. split; [split|split].
  - intros (su & Hsu). apply build_suite_Ok in Hsu.
    destruct Hsu as (d & -> & Hit & _). simpl.
    apply py_iter_iterable. eauto.
  - destruct raw as [| | | | | |d]; try discriminate. simpl. intros Hit.
    apply py_iter_iterable in Hit. destruct Hit as (l & Hl).
    rewrite build_suite_dict, Hl. simpl. eauto.
  - destruct raw; simpl; intros H; try reflexivity; discriminate.
  - intros d -> Hit. rewrite build_suite_dict.
    rewrite (py_iter_not_iterable _ Hit). reflexivity.
Qed.

Lemma build_suite_accepted_iff_witness :
  _build_suite (VDict [("tests", VNone)])
    = Raise (TypeError (NotIterable "NoneType")) /\
  exists su, _build_suite (VDict [("name", VStr "S")]) = Ok su.
Proof.
  split.
  - exact (proj2 (proj2 (build_suite_accepted_iff (VDict [("tests", VNone)])))
                 _ eq_refl eq_refl).
  - exact (proj2 (proj1 (build_suite_accepted_iff (VDict [("name", VStr "S")])))
                 eq_refl).
Defined.

(** ** Which documents the loader accepts *)

Lemma build_test_id (raw : value) (t : SideTest) :
  _build_test raw = Ok t -> test_id t = raw_test_id raw.
Proof.
  intros H. apply build_test_Ok in H.
  destruct H as (d & it & -> & _ & _ & Hid & _). exact Hid.
Qed.

(** [load_side_project] returns a project exactly when its argument is a
    str that [json.loads] decodes to an object whose [tests] and [suites]
    (empty lists when missing) can be iterated, every test record being one
    [_build_test] builds with a hashable id and every suite record one
    [_build_suite] builds. *)
Theorem load_accepted_iff :
  forall (json_loads : string -> decode_error + value)
         (payload default_name : value),
    (exists p, load_side_project json_loads payload default_name = Ok p) <->
    (exists s v, payload = VStr s /\ json_loads s = inr v /\ loadable v = true).
Proof.
  intros json_loads payload default_name. split.
  - intros (p & H). apply load_Ok in H.
    destruct H as (s & d & raw_tests & ts & raw_suites & -> & Hparse & Hit & Hts
                   & Hmap & His & Hss & _).
    exists s, (VDict d). split; [reflexivity|]. split; [assumption|].
    simpl. rewrite Hit, His. apply andb_true_intro. split.
    + apply forallb_forall. intros x Hx.
      destruct (mapM_Ok_each _ _ _ Hts x Hx) as (t & Ht).
      apply andb_true_intro. split.
      * apply build_test_accepted_iff. eauto.
      * rewrite <- (build_test_id _ _ Ht).
        pose proof (dict_comp_hashable _ _ _ Hmap) as Hh.
        rewrite Forall_forall in Hh. apply Hh.
        apply mapM_Forall2 in Hts. clear - Hts Hx Ht.
        induction Hts as [|x0 y0 l ys Hxy _ IH]; simpl in *; [contradiction|].
        destruct Hx as [->|Hx]; [left; congruence | right; auto].
    + apply forallb_forall. intros x Hx.
      apply build_suite_accepted_iff. exact (mapM_Ok_each _ _ _ Hss x Hx).
  - intros (s & v & -> & Hparse & Hload).
    destruct v as [| | | | | |d]; try discriminate. simpl in Hload.
    destruct (py_iter (get_default d "tests" (VList []))) as [lt|] eqn:Hlt;
      [|discriminate].
    destruct (py_iter (get_default d "suites" (VList []))) as [ls|] eqn:Hls;
      [|discriminate].
    apply andb_prop in Hload. destruct Hload as (Hallt & Halls).
    rewrite forallb_forall in Hallt, Halls.
    destruct (mapM_total _build_test lt) as (ts & Hts).
    { intros x Hx. apply build_test_accepted_iff.
      exact (proj1 (andb_prop _ _ (Hallt x Hx))). }
    destruct (dict_comp_total ts []) as (m & Hm).
    { apply Forall_forall. intros t Hin.
      destruct (mapM_In _ _ _ Hts t Hin) as (x & Hx & Hb).
      rewrite (build_test_id _ _ Hb).
      exact (proj2 (andb_prop _ _ (Hallt x Hx))). }
    destruct (mapM_total _build_suite ls) as (ss & Hss).
    { intros x Hx. apply build_suite_accepted_iff. exact (Halls x Hx). }
    unfold load_side_project, py_json_loads. rewrite Hparse.
    unfold get_default in Hlt, Hls.
    cbn [bind py_get]. rewrite Hlt. cbn [bind]. rewrite Hts.
    cbn [bind]. rewrite Hm. cbn [bind]. rewrite Hls.
    cbn [bind]. rewrite Hss. cbn [bind]. eauto.
Qed.

Lemma load_accepted_iff_witness :
  exists p, load_side_project json_loads_ref (VStr doc_dangling_suite) VNone = Ok p.
Proof.
  apply (proj2 (load_accepted_iff json_loads_ref (VStr doc_dangling_suite) VNone)).
  exists doc_dangling_suite, raw_dangling_suite.
  split; [reflexivity|]. split; vm_compute; reflexivity.
Defined.

(** A document whose top level is not an object (an array, a string, a
    number, [true], [false], [null]) is refused with AttributeError naming
    the type of the decoded value, whatever the default name. *)
Theorem load_top_level_not_object :
  forall (json_loads : string -> decode_error + value)
         (s : string) (v default_name : value),
    json_loads s = inr v ->
    is_dict v = false ->
    load_side_project json_loads (VStr s) default_name
      = Raise (AttributeError (type_name v) "get").
Proof.
  intros json_loads s v default_name Hparse Hv.
  unfold load_side_project, py_json_loads. rewrite Hparse.
  destruct v; try discriminate; reflexivity.
Qed.

Lemma load_top_level_not_object_witness :
  load_side_project json_loads_ref (VStr "null") (VStr "P")
    = Raise (AttributeError "NoneType" "get").
Proof.
  apply (load_top_level_not_object json_loads_ref "null" VNone (VStr "P")).
  - vm_compute. reflexivity.
  - reflexivity.
Defined.

(** An object with neither [tests] nor [suites] is always accepted: the
    project has an empty tests map and no suites, its id and url are the raw
    ones (the empty string and None when missing) and its name is resolved
    as usual. *)
Theorem load_without_tests_and_suites :
  forall (json_loads : string -> decode_error + value)
         (s : string) (d : list (string * value)) (default_name : value),
    json_loads s = inr (VDict d) ->
    dict_lookup "tests" d = None ->
    dict_lookup "suites" d = None ->
    load_side_project json_loads (VStr s) default_name =
    Ok {| project_id := get_default d "id" (VStr "");
          project_name := resolved_name (dict_lookup "name" d) default_name;
          project_url := get_default d "url" VNone;
          project_tests := [];
          project_suites := [] |}.
Proof.
  intros json_loads s d default_name Hparse Ht Hs.
  unfold load_side_project, py_json_loads. rewrite Hparse.
  cbn [bind py_get]. rewrite Ht, Hs. cbn.
  rewrite <- resolved_name_or. reflexivity.
Qed.

Lemma load_without_tests_and_suites_witness :
  load_side_project json_loads_ref (VStr doc_extra_keys) (VStr "Fallback") =
  Ok {| project_id := VStr "";
        project_name := VStr "P";
        project_url := VNone;
        project_tests := [];
        project_suites := [] |}.
Proof.
  assert (Hparse : json_loads_ref doc_extra_keys
                   = inr (VDict [("version", VStr "2.0"); ("name", VStr "P");
                                 ("urls", VList []); ("plugins", VList [])]))
    by (vm_compute; reflexivity).
  exact (load_without_tests_and_suites json_loads_ref _ _ (VStr "Fallback")
           Hparse eq_refl eq_refl).
Defined.

(** The default name decides nothing but the name: with two default names
    the loader either raises the same exception twice or returns two
    projects with the same id, url, tests and suites. *)
Theorem load_default_name_only_names :
  forall (json_loads : string -> decode_error + value)
         (payload default_name1 default_name2 : value),
    match load_side_project json_loads payload default_name1,
          load_side_project json_loads payload default_name2 with
    | Ok p1, Ok p2 =>
        project_id p1 = project_id p2 /\
        project_url p1 = project_url p2 /\
        project_tests p1 = project_tests p2 /\
        project_suites p1 = project_suites p2
    | Raise e1, Raise e2 => e1 = e2
    | _, _ => False
    end.
Proof.
  intros json_loads payload default_name1 default_name2.
  destruct payload; try reflexivity.
  unfold load_side_project.
  destruct (py_json_loads json_loads s) as [raw|e]; cbn [bind]; [|reflexivity].
  destruct (py_get raw "name" VNone) as [n|e]; cbn [bind]; [|reflexivity].
  destruct (py_get raw "tests" (VList [])) as [rt|e]; cbn [bind]; [|reflexivity].
  destruct (py_iter rt) as [it|e]; cbn [bind]; [|reflexivity].
  destruct (mapM _build_test it) as [ts|e]; cbn [bind]; [|reflexivity].
  destruct (dict_comp ts []) as [m|e]; cbn [bind]; [|reflexivity].
  destruct (py_get raw "suites" (VList [])) as [rs|e]; cbn [bind]; [|reflexivity].
  destruct (py_iter rs) as [its|e]; cbn [bind]; [|reflexivity].
  destruct (mapM _build_suite its) as [ss|e]; cbn [bind]; [|reflexivity].
  destruct (py_get raw "id" (VStr "")) as [i|e]; cbn [bind]; [|reflexivity].
  destruct (py_get raw "url" VNone) as [u|e]; cbn [bind]; [|reflexivity].
  simpl. auto.
Qed.

(** The loader reads the project object through the keys [name], [tests],
    [suites], [id] and [url] only: two documents whose objects agree on
    these five keys give the same outcome, project or exception. *)
Theorem load_reads_known_keys :
  forall (json_loads : string -> decode_error + value)
         (s1 s2 : string) (d1 d2 : list (string * value)) (default_name : value),
    json_loads s1 = inr (VDict d1) ->
    json_loads s2 = inr (VDict d2) ->
    (forall key, In key project_keys -> dict_lookup key d1 = dict_lookup key d2) ->
    load_side_project json_loads (VStr s1) default_name
    = load_side_project json_loads (VStr s2) default_name.
Proof.
  intros json_loads s1 s2 d1 d2 default_name H1 H2 Hkeys.
  unfold load_side_project, py_json_loads. rewrite H1, H2.
  cbn [bind py_get].
  rewrite (Hkeys "name"), (Hkeys "tests"), (Hkeys "suites"), (Hkeys "id"),
    (Hkeys "url"); [reflexivity| | | | |]; simpl; auto 10.
Qed.

Lemma load_reads_known_keys_witness :
  load_side_project json_loads_ref (VStr doc_extra_keys) VNone
  = load_side_project json_loads_ref (VStr doc_name_only) VNone.
Proof.
  assert (H1 : json_loads_ref doc_extra_keys
               = inr (VDict [("version", VStr "2.0"); ("name", VStr "P");
                             ("urls", VList []); ("plugins", VList [])]))
    by (vm_compute; reflexivity).
  assert (H2 : json_loads_ref doc_name_only = inr (VDict [("name", VStr "P")]))
    by (vm_compute; reflexivity).
  apply (load_reads_known_keys json_loads_ref _ _ _ _ VNone H1 H2).
  intros key Hkey. simpl in Hkey.
  destruct Hkey as [<-|[<-|[<-|[<-|[<-|[]]]]]]; reflexivity.
Defined.

(** ** Which exception is raised *)

(** A [tests] that is present but cannot be iterated (null, a bool, a
    number) is an error, unlike a missing [tests]: the loader raises the
    not-iterable TypeError naming its type, before it looks at the suites. *)
Theorem load_tests_not_iterable :
  forall (json_loads : string -> decode_error + value)
         (s : string) (d : list (string * value)) (v default_name : value),
    json_loads s = inr (VDict d) ->
    dict_lookup "tests" d = Some v ->
    iterable v = false ->
    load_side_project json_loads (VStr s) default_name
      = Raise (TypeError (NotIterable (type_name v))).
Proof.
  intros json_loads s d v default_name Hparse Ht Hv.
  unfold load_side_project, py_json_loads. rewrite Hparse.
  cbn [bind py_get]. rewrite Ht. rewrite (py_iter_not_iterable _ Hv). reflexivity.
Qed.

Lemma load_tests_not_iterable_witness :
  load_side_project json_loads_ref (VStr doc_null_tests) VNone
    = Raise (TypeError (NotIterable "NoneType")).
Proof.
  assert (Hparse : json_loads_ref doc_null_tests
                   = inr (VDict [("tests", VNone); ("suites", VInt 7)]))
    by (vm_compute; reflexivity).
  exact (load_tests_not_iterable json_loads_ref _ _ VNone VNone Hparse eq_refl eq_refl).
Defined.

(** The exception of a bad test record is that of the first one in input
    order: when the records before it are all built, the loader raises what
    [_build_test] raises on it, whatever follows it in the list, whatever
    the ids are and whatever the suites hold. *)
Theorem load_first_bad_test :
  forall (json_loads : string -> decode_error + value)
         (s : string) (d : list (string * value)) (default_name : value)
         (good : list value) (bad : value) (rest : list value) (e : exn),
    json_loads s = inr (VDict d) ->
    py_iter (get_default d "tests" (VList [])) = Ok (good ++ bad :: rest) ->
    forallb test_buildable good = true ->
    _build_test bad = Raise e ->
    load_side_project json_loads (VStr s) default_name = Raise e.
Proof.
  intros json_loads s d default_name good bad rest e Hparse Hit Hgood Hbad.
  unfold load_side_project, py_json_loads. rewrite Hparse.
  unfold get_default in Hit. cbn [bind py_get]. rewrite Hit. cbn [bind].
  rewrite (mapM_first_Raise _build_test good bad rest e); [reflexivity| |assumption].
  intros x Hx. apply build_test_accepted_iff.
  rewrite forallb_forall in Hgood. auto.
Qed.

Lemma load_first_bad_test_witness :
  load_side_project json_loads_ref (VStr doc_bad_second_test) VNone
    = Raise (AttributeError "int" "get").
Proof.
  assert (Hparse : json_loads_ref doc_bad_second_test
                   = inr (VDict [("tests", VList [VDict [("id", VStr "a")]; VInt 3;
                                                  VDict [("id", VList [])]]);
                                 ("suites", VInt 7)]))
    by (vm_compute; reflexivity).
  exact (load_first_bad_test json_loads_ref _ _ VNone
           [VDict [("id", VStr "a")]] (VInt 3) [VDict [("id", VList [])]] _
           Hparse eq_refl eq_refl eq_refl).
Defined.

Lemma dict_comp_first_unhashable (good : list SideTest) (t : SideTest)
      (rest : list SideTest) (d : test_dict) :
  Forall (fun t0 => hashable (test_id t0) = true) good ->
  hashable (test_id t) = false ->
  dict_comp (good ++ t :: rest) d
    = Raise (TypeError (Unhashable (type_name (test_id t)))).
Proof.
  intros Hgood Ht. revert d.
  induction Hgood as [|t0 good Ht0 _ IH]; intros d; simpl.
  - destruct (test_id t); simpl in *; try discriminate; reflexivity.
  - apply hashable_py_hash in Ht0. destruct Ht0 as (k & ->). simpl. apply IH.
Qed.

(** When every test record is built, the first test whose id is an array or
    an object makes the loader raise the unhashable TypeError naming the
    type of that id, whatever the suites hold. *)
Theorem load_unhashable_test_id :
  forall (json_loads : string -> decode_error + value)
         (s : string) (d : list (string * value)) (default_name : value)
         (raw_tests : list value) (good : list SideTest) (t : SideTest)
         (rest : list SideTest),
    json_loads s = inr (VDict d) ->
    py_iter (get_default d "tests" (VList [])) = Ok raw_tests ->
    mapM _build_test raw_tests = Ok (good ++ t :: rest) ->
    Forall (fun t0 => hashable (test_id t0) = true) good ->
    hashable (test_id t) = false ->
    load_side_project json_loads (VStr s) default_name
      = Raise (TypeError (Unhashable (type_name (test_id t)))).
Proof.
  intros json_loads s d default_name raw_tests good t rest Hparse Hit Hts Hgood Ht.
  unfold load_side_project, py_json_loads. rewrite Hparse.
  unfold get_default in Hit. cbn [bind py_get]. rewrite Hit. cbn [bind].
  rewrite Hts. cbn [bind].
  rewrite (dict_comp_first_unhashable good t rest [] Hgood Ht). reflexivity.
Qed.

Lemma load_unhashable_test_id_witness :
  load_side_project json_loads_ref (VStr doc_unhashable_second_id) VNone
    = Raise (TypeError (Unhashable "dict")).
Proof.
  assert (Hparse : json_loads_ref doc_unhashable_second_id
                   = inr (VDict [("tests", VList [VDict [("id", VStr "a")];
                                                  VDict [("id", VDict [])];
                                                  VDict [("id", VList [])]]);
                                 ("suites", VInt 7)]))
    by (vm_compute; reflexivity).
  apply (load_unhashable_test_id json_loads_ref _ _ VNone _
           [{| test_id := VStr "a"; test_name := VStr ""; test_commands := [] |}]
           {| test_id := VDict []; test_name := VStr ""; test_commands := [] |}
           [{| test_id := VList []; test_name := VStr ""; test_commands := [] |}]
           Hparse eq_refl eq_refl).
  - constructor; [reflexivity | constructor].
  - reflexivity.
Defined.

(** ** The name and the tests map of a loaded project *)

Lemma truthy_py_or (a b : value) : truthy b = true -> truthy (py_or a b) = true.
Proof. unfold py_or. intros Hb. destruct (truthy a) eqn:Ha; assumption. Qed.

(** Whatever the types of the raw name and of the default name, the name of
    a loaded project is truthy: never None, never the empty string, never
    zero, false or an empty container. *)
Theorem load_name_truthy :
  forall (json_loads : string -> decode_error + value)
         (payload default_name : value) (p : SideProject),
    load_side_project json_loads payload default_name = Ok p ->
    truthy (project_name p) = true /\
    project_name p <> VNone /\
    project_name p <> VStr "".
Proof.
  intros json_loads payload default_name p H. apply load_Ok in H.
  destruct H as (s & d & _ & _ & _ & _ & _ & _ & _ & _ & _ & _ & _ & Hname & _).
  assert (Ht : truthy (project_name p) = true).
  { rewrite Hname. apply truthy_py_or. reflexivity. }
  split; [exact Ht|].
  split; intros Heq; rewrite Heq in Ht; discriminate.
Qed.

Lemma load_name_truthy_witness :
  exists p,
    load_side_project json_loads_ref (VStr (json_text "{'name': 0}")) (VList []) = Ok p /\
    truthy (project_name p) = true.
Proof.
  destruct (load_side_project json_loads_ref (VStr (json_text "{'name': 0}")) (VList []))
    as [p|e] eqn:H; [|vm_compute in H; discriminate].
  exists p. split; [reflexivity|].
  exact (proj1 (load_name_truthy json_loads_ref _ _ _ H)).
Defined.

Lemma dict_store_length (k : value) (t : SideTest) (d : test_dict) :
  length (dict_store k t d) <= S (length d).
Proof.
  induction d as [|[k0 t0] d IH]; simpl; [lia|].
  destruct (key_eqb k0 k); simpl; lia.
Qed.

Lemma dict_comp_length (ts : list SideTest) (d d' : test_dict) :
  dict_comp ts d = Ok d' -> length d' <= length d + length ts.
Proof.
  revert d; induction ts as [|t ts IH]; intros d H; simpl in H.
  - injection H as <-. lia.
  - bind_inv H. apply IH in H.
    pose proof (dict_store_length (test_id t) t d). simpl. lia.
Qed.

Lemma dict_store_fresh (k : value) (t : SideTest) (d : test_dict) :
  Forall (fun e => key_eqb (fst e) k = false) d ->
  dict_store k t d = d ++ [(k, t)].
Proof.
  induction 1 as [|[k0 t0] d Hk _ IH]; simpl; [reflexivity|].
  simpl in Hk. rewrite Hk, IH. reflexivity.
Qed.

Lemma dict_comp_fresh (ts : list SideTest) (d d' : test_dict) :
  dict_comp ts d = Ok d' ->
  Forall (fun t => Forall (fun e => key_eqb (fst e) (test_id t) = false) d) ts ->
  ids_distinct ts ->
  d' = d ++ map (fun t => (test_id t, t)) ts.
Proof.
  unfold ids_distinct.
  revert d; induction ts as [|t ts IH]; intros d H Hd Hts; simpl in H.
  - injection H as <-. simpl. now rewrite app_nil_r.
  - bind_inv H.
    inversion Hd as [|? ? Hdt Hdts]; subst.
    inversion Hts as [|? ? Ht Hts']; subst.
    rewrite (dict_store_fresh _ _ _ Hdt) in H.
    rewrite (IH _ H); [simpl; rewrite <- app_assoc; reflexivity| |assumption].
    rewrite Forall_forall in Hdts, Ht. apply Forall_forall. intros t' Ht'.
    apply Forall_app. split; [apply Hdts; assumption|].
    constructor; [|constructor]. simpl. apply Ht. assumption.
Qed.

(** The tests map never has more items than there are test records, and
    when the ids of the built tests are pairwise different keys nothing is
    merged: the map lists every test, in input order, under its own id. *)
Theorem tests_map_distinct_ids :
  forall (json_loads : string -> decode_error + value)
         (payload default_name : value) (p : SideProject),
    load_side_project json_loads payload default_name = Ok p ->
    exists s d raw_tests ts,
      payload = VStr s /\
      json_loads s = inr (VDict d) /\
      py_iter (get_default d "tests" (VList [])) = Ok raw_tests /\
      mapM _build_test raw_tests = Ok ts /\
      length (project_tests p) <= length raw_tests /\
      (ids_distinct ts -> project_tests p = map (fun t => (test_id t, t)) ts).
Proof.
  intros json_loads payload default_name p H. apply load_Ok in H.
  destruct H as (s & d & raw_tests & ts & _ & -> & Hparse & Hit & Hts & Hmap & _).
  exists s, d, raw_tests, ts.
  split; [reflexivity|]. split; [assumption|]. split; [assumption|].
  split; [assumption|]. split.
  - pose proof (dict_comp_length _ _ _ Hmap) as Hlen.
    rewrite (mapM_length _ _ _ Hts) in Hlen. simpl in Hlen. exact Hlen.
  - intros Hdist.
    apply (dict_comp_fresh ts [] _ Hmap); [|assumption].
    apply Forall_forall. intros t _. constructor.
Qed.

Lemma tests_map_distinct_ids_witness :
  exists p,
    load_side_project json_loads_ref (VStr doc_two_tests) VNone = Ok p /\
    project_tests p =
    [(VStr "a", {| test_id := VStr "a"; test_name := VStr "first"; test_commands := [] |});
     (VStr "b", {| test_id := VStr "b"; test_name := VStr "other"; test_commands := [] |})].
Proof.
  destruct (load_side_project json_loads_ref (VStr doc_two_tests) VNone)
    as [p|e] eqn:H; [|vm_compute in H; discriminate].
  exists p. split; [reflexivity|].
  destruct (tests_map_distinct_ids json_loads_ref _ _ _ H)
    as (s & d & raw_tests & ts & Hs & Hd & Hit & Hts & _ & Hmap).
  injection Hs as <-. vm_compute in Hd. injection Hd as <-.
  vm_compute in Hit. injection Hit as <-.
  vm_compute in Hts. injection Hts as <-.
  rewrite Hmap; [reflexivity|].
  constructor; [|constructor; [constructor|constructor]].
  constructor; [reflexivity|constructor].
Defined.

Lemma count_key_In (k : value) (t : SideTest) (d : test_dict) :
  key_eqb k k = true -> In (k, t) d -> 1 <= count_key k d.
Proof.
  intros Hk. induction d as [|[k0 t0] d IH]; simpl; intros Hin; [contradiction|].
  rewrite count_key_cons. destruct Hin as [Heq|Hin].
  - injection Heq as -> ->. rewrite Hk. lia.
  - apply IH in Hin. lia.
Qed.

Lemma dict_find_In (k : value) (t : SideTest) (d : test_dict) :
  keys_distinct d -> key_eqb k k = true -> In (k, t) d -> dict_find k d = Some t.
Proof.
  intros Hd Hk. induction d as [|[k0 t0] d IH]; simpl; intros Hin; [contradiction|].
  destruct Hin as [Heq|Hin].
  - injection Heq as -> ->. rewrite Hk. reflexivity.
  - destruct (key_eqb k0 k) eqn:H0.
    + pose proof (count_key_In _ _ _ Hk Hin) as Hge.
      specialize (Hd k). rewrite count_key_cons, H0 in Hd. lia.
    + apply IH; [exact (keys_distinct_tail _ _ Hd) | assumption].
Qed.

Lemma dict_find_key_eqb (a b : value) (d : test_dict) :
  key_eqb a b = true -> dict_find a d = dict_find b d.
Proof.
  intros Hab. induction d as [|[k0 t0] d IH]; simpl; [reflexivity|].
  rewrite (key_eqb_sym k0 a), (key_eqb_subst _ _ k0 Hab), (key_eqb_sym b k0).
  destruct (key_eqb k0 b); [reflexivity | exact IH].
Qed.

Lemma py_hash_str (v : value) (s : string) : py_hash v = Ok (KStr s) -> v = VStr s.
Proof.
  destruct v; simpl; intros H; try discriminate.
  - unfold float_key in H. destruct (Prim2SF f); try discriminate.
    destruct (strip_twos m e) as [m' e']. destruct (Z.leb 0 e'); discriminate.
  - congruence.
Qed.

(** Every item of the tests map of a loaded project holds a built test
    whose id is the item's key, as a dict key: looking the key up gives that
    test back, and when the id of the test is a str the key is that very
    str. *)
Theorem tests_map_key_is_test_id :
  forall (json_loads : string -> decode_error + value)
         (payload default_name : value) (p : SideProject),
    load_side_project json_loads payload default_name = Ok p ->
    forall k t, In (k, t) (project_tests p) ->
      key_eqb k (test_id t) = true /\
      dict_find k (project_tests p) = Some t /\
      dict_find (test_id t) (project_tests p) = Some t /\
      (forall s, test_id t = VStr s -> k = VStr s).
Proof.
  intros json_loads payload default_name p H k t Hin. apply load_Ok in H.
  destruct H as (s & d & raw_tests & ts & _ & _ & _ & _ & _ & Hmap & _).
  pose proof (dict_comp_items ts [] [] _ Hmap (Forall_nil _)) as Hitems.
  rewrite Forall_forall in Hitems. destruct (Hitems _ Hin) as (_ & _ & Hk).
  simpl in Hk.
  assert (Hdist : keys_distinct (project_tests p)).
  { eapply dict_comp_distinct; [exact Hmap|]. intros k'. unfold count_key. simpl. lia. }
  assert (Hkk : key_eqb k k = true).
  { apply key_eqb_true in Hk. destruct Hk as (hk & Hhk & _).
    eapply key_eqb_refl; eassumption. }
  assert (Hfind : dict_find k (project_tests p) = Some t)
    by (apply dict_find_In; assumption).
  split; [exact Hk|]. split; [exact Hfind|]. split.
  - rewrite <- (dict_find_key_eqb _ _ (project_tests p) Hk). exact Hfind.
  - intros s' Hs'. rewrite Hs' in Hk. apply key_eqb_true in Hk.
    destruct Hk as (hk & Hhk & Hhs). simpl in Hhs. injection Hhs as <-.
    exact (py_hash_str _ _ Hhk).
Qed.

Lemma tests_map_key_is_test_id_witness :
  exists p,
    load_side_project json_loads_ref (VStr doc_duplicate_ids) VNone = Ok p /\
    dict_find (VStr "a") (project_tests p)
      = Some {| test_id := VStr "a"; test_name := VStr "last"; test_commands := [] |}.
Proof.
  destruct (load_side_project json_loads_ref (VStr doc_duplicate_ids) VNone)
    as [p|e] eqn:H; [|vm_compute in H; discriminate].
  exists p. split; [reflexivity|].
  refine (proj1 (proj2 (tests_map_key_is_test_id json_loads_ref _ _ _ H
                          (VStr "a") _ _))).
  vm_compute in H. injection H as <-. left. reflexivity.
Defined.
